(** * SellMe_PRT: the realtime chat handler and the sale analyzer

  A shallow embedding of [src/realtime/chatHandler.ts] and
  [src/services/saleAnalyzer.ts].

  One connection owns a handful of local variables ([currentPhase],
  [isWaitingForUserTranscript], [bufferedAssistantTranscript],
  [sessionReady]) and one row of the [salesSession] table together with
  its [message] rows.  Every handler is an [async] function wrapped in a
  [try]/[catch]; it is embedded in a small monad that threads the world,
  records the effects the handler performs in order (frames sent to the
  client, rows written, classifier requests) and can throw.

  Conventions of the embedding:
  - strings are [string]; [toLowerCase] and [toUpperCase] are functions
    of the JavaScript runtime and are taken as a parameter (a
    [JS.CaseMapping]): every general theorem holds whatever they are;
    the examples are strings of ASCII characters and run with the ASCII
    folding, which is what the runtime does on such strings;
  - a confidence is an integer ([Z]); timestamps are integers;
  - one handler runs to completion before the next event is handled;
  - what the outside world decides during one handler (is the client
    socket open, does the store answer, what does the completion
    endpoint reply, what time is it) is given by an [Env]. *)

From Stdlib Require Import String Ascii List ZArith Bool Arith Lia.
Import ListNotations.
Local Open Scope string_scope.

(** ** Strings as JavaScript uses them *)

Module JS.

Definition is_upper (c : ascii) : bool :=
  let n := nat_of_ascii c in (65 <=? n)%nat && (n <=? 90)%nat.

Definition is_lower (c : ascii) : bool :=
  let n := nat_of_ascii c in (97 <=? n)%nat && (n <=? 122)%nat.

Definition lower_char (c : ascii) : ascii :=
  if is_upper c then ascii_of_nat (nat_of_ascii c + 32) else c.

Definition upper_char (c : ascii) : ascii :=
  if is_lower c then ascii_of_nat (nat_of_ascii c - 32) else c.

Fixpoint map_string (f : ascii -> ascii) (s : string) : string :=
  match s with
  | EmptyString => EmptyString
  | String c r => String (f c) (map_string f r)
  end.

(** [String.prototype.toLowerCase] and [String.prototype.toUpperCase] are
    not code of this repository: the handlers are embedded over any pair
    of such functions. *)
Class CaseMapping := {
  toLowerCase : string -> string;
  toUpperCase : string -> string
}.

(** Strings of ASCII characters (code units below 128). *)
Definition is_ascii_char (c : ascii) : bool := (nat_of_ascii c <? 128)%nat.

Fixpoint is_ascii (s : string) : bool :=
  match s with
  | EmptyString => true
  | String c r => is_ascii_char c && is_ascii r
  end.

(** On a string of ASCII characters the runtime functions fold the
    letters A-Z and a-z and leave every other character alone. *)
Definition ascii_toLowerCase : string -> string := map_string lower_char.
Definition ascii_toUpperCase : string -> string := map_string upper_char.

(** The case mapping the examples run with. *)
Definition ascii_case : CaseMapping :=
  {| toLowerCase := ascii_toLowerCase; toUpperCase := ascii_toUpperCase |}.

(** A case mapping that folds strings of ASCII characters the way the
    ASCII folding does, as the runtime's functions do. *)
Definition folds_ascii (cm : CaseMapping) : Prop :=
  forall s, is_ascii s = true ->
    toLowerCase s = ascii_toLowerCase s /\ toUpperCase s = ascii_toUpperCase s.

(** [s.includes(sub)] *)
Fixpoint includes (s sub : string) : bool :=
  match s with
  | EmptyString => String.prefix sub s
  | String _ r => String.prefix sub s || includes r sub
  end.

(** [xs.join(sep)] *)
Fixpoint join (sep : string) (xs : list string) : string :=
  match xs with
  | [] => EmptyString
  | [x] => x
  | x :: r => x ++ sep ++ join sep r
  end.

(** [xs.slice(-n)]: the last [n] elements, all of them when there are
    fewer. *)
Definition slice_last {A} (n : nat) (xs : list A) : list A :=
  skipn (length xs - n) xs.

(** [s || d] for a possibly missing string: the empty string is falsy. *)
Definition str_or (s : option string) (d : string) : string :=
  match s with
  | Some (String c r) => String c r
  | _ => d
  end.

(** [n || d] for a possibly missing number: zero is falsy. *)
Definition num_or (n : option Z) (d : Z) : Z :=
  match n with
  | Some v => if Z.eqb v 0 then d else v
  | None => d
  end.

End JS.

(** ** services/saleAnalyzer.ts *)

Module SaleAnalyzer.

(** [AnalysisResult]; [outcome] is one of ["SALE_CONFIRMED"],
    ["SALE_DENIED"], ["UNDECIDED"] when the endpoint keeps to the prompt,
    and is compared as a string by the caller. *)
Record AnalysisResult := mkAnalysis {
  outcome : string;
  confidence : Z;
  reasoning : string;
  keyPhrase : option string;
  popupHeadline : option string;
  popupMessage : option string
}.

(** The object [JSON.parse(content)] yields: every field may be absent. *)
Record RawResult := mkRaw {
  r_outcome : option string;
  r_confidence : option Z;
  r_reasoning : option string;
  r_keyPhrase : option string;
  r_popupHeadline : option string;
  r_popupMessage : option string
}.

(** What [openai.chat.completions.create] followed by [JSON.parse] can
    do inside the [try] block. *)
Inductive ApiReply :=
| ApiRejected                  (* the request promise rejects *)
| ApiUnparseable               (* JSON.parse throws, or yields null *)
| ApiObject (r : RawResult).   (* the content parses to these fields *)

(** [{role, content}] *)
Record ChatMsg := mkChat { role : string; content : string }.

Definition line {cm : JS.CaseMapping} (m : ChatMsg) : string :=
  JS.toUpperCase (role m) ++ ": " ++ content m.

Definition newline : string := String (ascii_of_nat 10) EmptyString.

(** [messages.slice(-n).map(m => ...).join('\n')] *)
Definition conversationText {cm : JS.CaseMapping} (n : nat) (messages : list ChatMsg) : string :=
  JS.join newline (map line (JS.slice_last n messages)).

Definition of_raw (r : RawResult) : AnalysisResult :=
  {| outcome := JS.str_or (r_outcome r) "UNDECIDED";
     confidence := JS.num_or (r_confidence r) 0;
     reasoning := JS.str_or (r_reasoning r) "Unable to analyze";
     keyPhrase := r_keyPhrase r;
     popupHeadline := r_popupHeadline r;
     popupMessage := r_popupMessage r |}.

(** The value returned from the [catch] block. *)
Definition analysis_error : AnalysisResult :=
  {| outcome := "UNDECIDED";
     confidence := 0;
     reasoning := "Analysis error - defaulting to undecided";
     keyPhrase := None;
     popupHeadline := None;
     popupMessage := None |}.

(** The [try]/[catch] of both analyzers, given what the endpoint did. *)
Definition settle (reply : ApiReply) : AnalysisResult :=
  match reply with
  | ApiObject r => of_raw r
  | ApiRejected | ApiUnparseable => analysis_error
  end.

(** A request as the endpoint receives it: which analyzer asked, and the
    conversation text put in the user message. *)
Record Request := mkRequest { analyzer : string; text : string }.

(** [analyzeWithAI(messages)]: the request sent and the result returned. *)
Definition analyzeWithAI {cm : JS.CaseMapping} (messages : list ChatMsg) (reply : ApiReply)
  : Request * AnalysisResult :=
  ({| analyzer := "detectSaleOutcome";
      text := conversationText 10 messages |},
   settle reply).

Definition detectSaleOutcome {cm : JS.CaseMapping} (conversationHistory : list ChatMsg)
  (reply : ApiReply) : Request * AnalysisResult :=
  analyzeWithAI conversationHistory reply.

(** [detectUserSaleOutcome(conversationHistory, difficulty)]; the
    difficulty only enters the system prompt. *)
Definition detectUserSaleOutcome {cm : JS.CaseMapping} (conversationHistory : list ChatMsg)
  (difficulty : string) (reply : ApiReply) : Request * AnalysisResult :=
  ({| analyzer := "detectUserSaleOutcome";
      text := conversationText 12 conversationHistory |},
   settle reply).

End SaleAnalyzer.

(** ** The tables the handler reads and writes (Prisma) *)

Module Store.

(** [currentPhase] as written by the handler. *)
Inductive Phase :=
| greeting | discovery | pitching | positioning | closing | completed.

(** [outcome]; a row whose outcome is still null has [None]. *)
Inductive Outcome := sale_made | no_sale | abandoned.

(** A [salesSession] row, the columns the handler touches. *)
Record Session := mkSession {
  currentPhase : Phase;
  outcome : option Outcome;
  saleConfirmed : option bool;
  endedAt : option Z
}.

(** A [message] row; rows are kept in the order of [createdAt]. *)
Record Message := mkMessage {
  role : string;
  content : string;
  phase : Phase
}.

(** The [data] of a [salesSession.update]: the columns it sets. *)
Record Patch := mkPatch {
  set_currentPhase : option Phase;
  set_outcome : option Outcome;
  set_saleConfirmed : option bool;
  set_endedAt : option Z
}.

Definition override {A} (new : option A) (old : A) : A :=
  match new with Some v => v | None => old end.

Definition keep {A} (new old : option A) : option A :=
  match new with Some v => Some v | None => old end.

Definition update (d : Patch) (s : Session) : Session :=
  {| currentPhase := override (set_currentPhase d) (currentPhase s);
     outcome := keep (set_outcome d) (outcome s);
     saleConfirmed := keep (set_saleConfirmed d) (saleConfirmed s);
     endedAt := keep (set_endedAt d) (endedAt s) |}.

(** [data: { currentPhase: p }] *)
Definition phase_patch (p : Phase) : Patch :=
  {| set_currentPhase := Some p; set_outcome := None;
     set_saleConfirmed := None; set_endedAt := None |}.

(** [data: { outcome, saleConfirmed, currentPhase: 'completed',
    endedAt: new Date() }] *)
Definition outcome_patch (o : Outcome) (confirmed : bool) (now : Z) : Patch :=
  {| set_currentPhase := Some completed; set_outcome := Some o;
     set_saleConfirmed := Some confirmed; set_endedAt := Some now |}.

(** [data: { outcome: 'abandoned', endedAt: new Date() }] *)
Definition abandoned_patch (now : Z) : Patch :=
  {| set_currentPhase := None; set_outcome := Some abandoned;
     set_saleConfirmed := None; set_endedAt := Some now |}.

(** The row [salesSession.create] inserts. *)
Definition fresh : Session :=
  {| currentPhase := greeting; outcome := None;
     saleConfirmed := None; endedAt := None |}.

Definition phase_eqb (p q : Phase) : bool :=
  match p, q with
  | greeting, greeting | discovery, discovery | pitching, pitching
  | positioning, positioning | closing, closing | completed, completed => true
  | _, _ => false
  end.

(** The order of the phases: GREETING < DISCOVERY, PITCHING < POSITIONING
    < CLOSING < COMPLETED. *)
Definition rank (p : Phase) : nat :=
  match p with
  | greeting => 0
  | discovery | pitching => 1
  | positioning => 2
  | closing => 3
  | completed => 4
  end.

(** [message.count({ where: { role: 'user' } })] *)
Definition count_user (ms : list Message) : nat :=
  length (filter (fun m => String.eqb (role m) "user") ms).

(** [message.findMany({ orderBy: { createdAt: 'asc' }, take: 15 })] *)
Definition findMany_asc_take15 (ms : list Message) : list Message :=
  firstn 15 ms.

End Store.

(** ** The two sockets *)

Module Client.

(** Frames sent to the browser, by their [type]. *)
Inductive Msg :=
| ready (sessionId : string)
| audio (audio : string)
| assistant_transcript (text : string)
| user_transcript (text : string)
| sale_made (headline message : string)
| sale_denied (headline message : string)
| error (message : string).

End Client.

Module Realtime.

(** Events received from the realtime engine, by their [type]. *)
Inductive Event :=
| session_created
| session_updated
| speech_started                                  (* input_audio_buffer.speech_started *)
| audio_delta (delta : string)                    (* response.audio.delta *)
| audio_transcript_delta (delta : string)         (* response.audio_transcript.delta *)
| audio_transcript_done (transcript : string)     (* response.audio_transcript.done *)
| input_transcription_completed (transcript : string)
    (* conversation.item.input_audio_transcription.completed *)
| error (message : option string)
| other                                           (* any other type *)
| malformed.                                      (* a frame JSON.parse rejects *)

(** Frames sent to the engine by the handlers embedded here. *)
Inductive Cmd :=
| response_create (instructions : string).

End Realtime.

(** ** realtime/chatHandler.ts *)

Module ChatHandler.

(** What [handleChatConnection] reads once, at connection time. *)
Record Config := mkConfig {
  sessionId : string;
  salesMode : string;              (* config?.salesMode || 'ai_sells' *)
  difficulty : string;             (* config?.difficulty || 'medium' *)
  triggerPhrase : option string;   (* config?.triggerPhrase *)
  greetingMessage : string
}.

(** What the outside world does while one handler runs. *)
Record Env := mkEnv {
  clientOpen : bool;      (* clientWs.readyState === WebSocket.OPEN *)
  upstreamOpen : bool;    (* openaiWs.readyState === WebSocket.OPEN *)
  storeUp : bool;         (* the Prisma promises of this handler resolve *)
  reply : SaleAnalyzer.ApiReply;
  now : Z                 (* new Date() *)
}.

(** The variables of the closure and the rows of the session. *)
Record World := mkWorld {
  session : Store.Session;
  messages : list Store.Message;
  currentPhase : Store.Phase;
  isWaitingForUserTranscript : bool;
  bufferedAssistantTranscript : list string;
  sessionReady : bool
}.

(** The world when the handlers are installed. *)
Definition initial : World :=
  {| session := Store.fresh; messages := [];
     currentPhase := Store.greeting;
     isWaitingForUserTranscript := false;
     bufferedAssistantTranscript := [];
     sessionReady := false |}.

Definition with_session (f : Store.Session -> Store.Session) (w : World) : World :=
  {| session := f (session w); messages := messages w;
     currentPhase := currentPhase w;
     isWaitingForUserTranscript := isWaitingForUserTranscript w;
     bufferedAssistantTranscript := bufferedAssistantTranscript w;
     sessionReady := sessionReady w |}.

Definition add_message (m : Store.Message) (w : World) : World :=
  {| session := session w; messages := (messages w ++ [m])%list;
     currentPhase := currentPhase w;
     isWaitingForUserTranscript := isWaitingForUserTranscript w;
     bufferedAssistantTranscript := bufferedAssistantTranscript w;
     sessionReady := sessionReady w |}.

Definition set_currentPhase (p : Store.Phase) (w : World) : World :=
  {| session := session w; messages := messages w;
     currentPhase := p;
     isWaitingForUserTranscript := isWaitingForUserTranscript w;
     bufferedAssistantTranscript := bufferedAssistantTranscript w;
     sessionReady := sessionReady w |}.

Definition set_isWaiting (b : bool) (w : World) : World :=
  {| session := session w; messages := messages w;
     currentPhase := currentPhase w;
     isWaitingForUserTranscript := b;
     bufferedAssistantTranscript := bufferedAssistantTranscript w;
     sessionReady := sessionReady w |}.

Definition set_buffered (l : list string) (w : World) : World :=
  {| session := session w; messages := messages w;
     currentPhase := currentPhase w;
     isWaitingForUserTranscript := isWaitingForUserTranscript w;
     bufferedAssistantTranscript := l;
     sessionReady := sessionReady w |}.

Definition set_sessionReady (b : bool) (w : World) : World :=
  {| session := session w; messages := messages w;
     currentPhase := currentPhase w;
     isWaitingForUserTranscript := isWaitingForUserTranscript w;
     bufferedAssistantTranscript := bufferedAssistantTranscript w;
     sessionReady := b |}.

(** What a handler does to the outside, in the order it does it. *)
Inductive Effect :=
| ClientSend (m : Client.Msg)            (* clientWs.send *)
| ClientClose                            (* clientWs.close() *)
| UpstreamSend (c : Realtime.Cmd)        (* openaiWs.send *)
| UpstreamClose                          (* openaiWs.close() *)
| MessageCreate (m : Store.Message)      (* prisma.message.create *)
| SessionUpdate (d : Store.Patch)        (* prisma.salesSession.update *)
| Classify (r : SaleAnalyzer.Request).   (* openai.chat.completions.create *)

(** *** The handler monad: world, effects, exceptions *)

Definition M (A : Type) : Type := World -> option A * World * list Effect.

Definition ret {A} (a : A) : M A := fun w => (Some a, w, []).

Definition bind {A B} (m : M A) (k : A -> M B) : M B :=
  fun w =>
    match m w with
    | (Some a, w1, t1) =>
        match k a w1 with (r, w2, t2) => (r, w2, (t1 ++ t2)%list) end
    | (None, w1, t1) => (None, w1, t1)
    end.

Definition throw {A} : M A := fun w => (None, w, []).

(** [try { m } catch (err) { logger.error(...) }] *)
Definition try_catch (m : M unit) : M unit :=
  fun w => match m w with (_, w1, t1) => (Some tt, w1, t1) end.

Definition emit (e : Effect) : M unit := fun w => (Some tt, w, [e]).
Definition gets {A} (f : World -> A) : M A := fun w => (Some (f w), w, []).
Definition modify (f : World -> World) : M unit := fun w => (Some tt, f w, []).
Definition when (b : bool) (m : M unit) : M unit := if b then m else ret tt.

Declare Scope handler_scope.
Delimit Scope handler_scope with handler.
Notation "x <- m ;; k" := (bind m (fun x => k))
  (at level 61, m at next level, right associativity) : handler_scope.
Notation "m ;; k" := (bind m (fun _ => k))
  (at level 61, right associativity) : handler_scope.
Local Open Scope handler_scope.

(** *** Prisma calls; each rejects when the store is down *)

Definition message_create (env : Env) (m : Store.Message) : M unit :=
  if storeUp env then emit (MessageCreate m) ;; modify (add_message m)
  else throw.

Definition salesSession_update (env : Env) (d : Store.Patch) : M unit :=
  if storeUp env then emit (SessionUpdate d) ;; modify (with_session (Store.update d))
  else throw.

Definition message_count_user (env : Env) : M nat :=
  if storeUp env then gets (fun w => Store.count_user (messages w)) else throw.

Definition message_findMany (env : Env) : M (list Store.Message) :=
  if storeUp env then gets (fun w => Store.findMany_asc_take15 (messages w))
  else throw.

Definition salesSession_findUnique (env : Env) : M Store.Session :=
  if storeUp env then gets session else throw.

(** [logMessage(sessionId, role, content, phase)]: swallows its error. *)
Definition logMessage (env : Env) (role content : string) (phase : Store.Phase)
  : M unit :=
  try_catch (message_create env (Store.mkMessage role content phase)).

(** [conversationHistory.map(m => ({ role: m.role, content: m.content }))] *)
Definition to_chat (m : Store.Message) : SaleAnalyzer.ChatMsg :=
  SaleAnalyzer.mkChat (Store.role m) (Store.content m).

(** Awaiting an analyzer: the request goes out, the result comes back. *)
Definition await_analysis (call : SaleAnalyzer.Request * SaleAnalyzer.AnalysisResult)
  : M SaleAnalyzer.AnalysisResult :=
  emit (Classify (fst call)) ;; ret (snd call).

(** *** The phrase lists *)

Definition exitPhrases : list string :=
  ["bye"; "goodbye"; "i'm done"; "end session"; "not interested";
   "no thanks"; "i don't want"; "forget it"; "never mind"; "i'll pass"].

Definition buyPhrases : list string :=
  ["i'll take it"; "i'll buy"; "sold"; "deal"; "yes"; "sign me up";
   "i want it"; "i'm in"].

Definition giveUpPhrases : list string :=
  ["bye"; "goodbye"; "i give up"; "i'm done"; "forget it"; "never mind";
   "i quit"; "end session"].

(** [phrases.some(phrase => lowerTranscript.includes(phrase))] *)
Definition some_included (phrases : list string) (lowerTranscript : string) : bool :=
  existsb (fun phrase => JS.includes lowerTranscript phrase) phrases.

Definition isExitSignal {cm : JS.CaseMapping} (transcript : string) : bool :=
  some_included exitPhrases (JS.toLowerCase transcript).

Definition isBuySignal {cm : JS.CaseMapping} (transcript : string) : bool :=
  some_included buyPhrases (JS.toLowerCase transcript).

Definition isGivingUp {cm : JS.CaseMapping} (transcript : string) : bool :=
  some_included giveUpPhrases (JS.toLowerCase transcript).

(** [config?.triggerPhrase?.toLowerCase() || 'sell me a pen'] *)
Definition effective_trigger {cm : JS.CaseMapping} (cfg : Config) : string :=
  JS.str_or (option_map JS.toLowerCase (triggerPhrase cfg)) "sell me a pen".

Definition saysTrigger {cm : JS.CaseMapping} (cfg : Config) (transcript : string) : bool :=
  JS.includes (JS.toLowerCase transcript) (effective_trigger cfg).

(** *** The commits: one row update, then one frame to the client *)

(** The [SALE_CONFIRMED] branch of both modes; the fallback headline and
    message are the mode's. *)
Definition commit_sale_made (env : Env) (analysis : SaleAnalyzer.AnalysisResult)
  (headline message : string) : M unit :=
  salesSession_update env (Store.outcome_patch Store.sale_made true (now env)) ;;
  emit (ClientSend (Client.sale_made
          (JS.str_or (SaleAnalyzer.popupHeadline analysis) headline)
          (JS.str_or (SaleAnalyzer.popupMessage analysis) message))).

(** The [SALE_DENIED] branch of both modes. *)
Definition commit_sale_denied (env : Env) (analysis : SaleAnalyzer.AnalysisResult)
  (headline message : string) : M unit :=
  salesSession_update env (Store.outcome_patch Store.no_sale false (now env)) ;;
  emit (ClientSend (Client.sale_denied
          (JS.str_or (SaleAnalyzer.popupHeadline analysis) headline)
          (JS.str_or (SaleAnalyzer.popupMessage analysis) message))).

(** [isExitSignal ? 60 : 80] *)
Definition confidenceThreshold (exitSignal : bool) : Z :=
  if exitSignal then 60%Z else 80%Z.

(** What the handler does with an analysis once it has one: the [if
    (analysis.confidence >= threshold)] block and its two branches. *)
Definition act_on_analysis (env : Env) (threshold : Z)
  (analysis : SaleAnalyzer.AnalysisResult)
  (made_headline made_message denied_headline denied_message : string) : M unit :=
  if (threshold <=? SaleAnalyzer.confidence analysis)%Z then
    if String.eqb (SaleAnalyzer.outcome analysis) "SALE_CONFIRMED" then
      commit_sale_made env analysis made_headline made_message
    else if String.eqb (SaleAnalyzer.outcome analysis) "SALE_DENIED" then
      commit_sale_denied env analysis denied_headline denied_message
    else ret tt
  else ret tt.

(** *** case 'conversation.item.input_audio_transcription.completed' *)

(** The [salesMode === 'ai_sells'] branch, first half: the trigger phrase
    and the progression by the count of user messages. *)
Definition advance_phase {cm : JS.CaseMapping} (cfg : Config) (env : Env) (transcript : string) : M unit :=
  when (saysTrigger cfg transcript)
    (modify (set_currentPhase Store.discovery) ;;
     salesSession_update env (Store.phase_patch Store.discovery)) ;;
  messageCount <- message_count_user env ;;
  phase <- gets currentPhase ;;
  if Store.phase_eqb phase Store.discovery && (3 <=? messageCount)%nat then
    modify (set_currentPhase Store.positioning) ;;
    salesSession_update env (Store.phase_patch Store.positioning)
  else if Store.phase_eqb phase Store.positioning && (5 <=? messageCount)%nat then
    modify (set_currentPhase Store.closing) ;;
    salesSession_update env (Store.phase_patch Store.closing)
  else ret tt.

(** [currentPhase === 'closing' || isExitSignal || isBuySignal ||
    currentPhase !== 'greeting'] *)
Definition detection_runs {cm : JS.CaseMapping} (phase : Store.Phase) (transcript : string) : bool :=
  Store.phase_eqb phase Store.closing
  || isExitSignal transcript
  || isBuySignal transcript
  || negb (Store.phase_eqb phase Store.greeting).

(** Second half: the sale detection. *)
Definition detect_sale {cm : JS.CaseMapping} (env : Env) (transcript : string) : M unit :=
  phase <- gets currentPhase ;;
  when (detection_runs phase transcript)
    (conversationHistory <- message_findMany env ;;
     analysis <- await_analysis
       (SaleAnalyzer.detectSaleOutcome (map to_chat conversationHistory) (reply env)) ;;
     act_on_analysis env (confidenceThreshold (isExitSignal transcript)) analysis
       "SALE MADE!" "Congratulations! You closed the deal!"
       "NO SALE" "The customer declined. Better luck next time!").

Definition ai_sells_turn {cm : JS.CaseMapping} (cfg : Config) (env : Env) (transcript : string) : M unit :=
  advance_phase cfg env transcript ;;
  detect_sale env transcript.

(** The [else] branch: the user is the salesperson. *)
Definition user_sells_turn {cm : JS.CaseMapping} (env : Env) (transcript : string) : M unit :=
  phase <- gets currentPhase ;;
  when (Store.phase_eqb phase Store.greeting)
    (modify (set_currentPhase Store.pitching) ;;
     salesSession_update env (Store.phase_patch Store.pitching)) ;;
  when (isGivingUp transcript)
    (salesSession_update env (Store.outcome_patch Store.no_sale false (now env)) ;;
     emit (ClientSend (Client.sale_denied "SESSION ENDED"
       "You ended the session without making a sale. Keep practicing!"))).

(** The flush that ends the [if (clientWs.readyState === OPEN)] block. *)
Definition flush_buffered : M unit :=
  buffered <- gets bufferedAssistantTranscript ;;
  when (0 <? length buffered)%nat
    (emit (ClientSend (Client.assistant_transcript (String.concat EmptyString buffered))) ;;
     modify (set_buffered [])).

Definition on_input_transcription_completed {cm : JS.CaseMapping} (cfg : Config) (env : Env)
  (transcript : string) : M unit :=
  when (clientOpen env)
    (emit (ClientSend (Client.user_transcript transcript)) ;;
     phase <- gets currentPhase ;;
     logMessage env "user" transcript phase ;;
     (if String.eqb (salesMode cfg) "ai_sells"
      then ai_sells_turn cfg env transcript
      else user_sells_turn env transcript) ;;
     flush_buffered) ;;
  modify (set_isWaiting false).

(** *** case 'response.audio_transcript.done' *)

Definition on_audio_transcript_done {cm : JS.CaseMapping} (cfg : Config) (env : Env)
  (transcript : string) : M unit :=
  when (negb (String.eqb transcript EmptyString))
    (phase <- gets currentPhase ;;
     logMessage env "assistant" transcript phase ;;
     phase <- gets currentPhase ;;
     when (String.eqb (salesMode cfg) "user_sells"
           && negb (Store.phase_eqb phase Store.greeting))
       (conversationHistory <- message_findMany env ;;
        analysis <- await_analysis
          (SaleAnalyzer.detectUserSaleOutcome (map to_chat conversationHistory)
             (difficulty cfg) (reply env)) ;;
        act_on_analysis env 80 analysis
          "YOU MADE THE SALE!" "Great job! The customer bought the pen!"
          "NO SALE" "The customer said no. Try a different approach!")).

(** *** The other cases *)

Definition quote : string := String (ascii_of_nat 34) EmptyString.

(** [sendGreeting()] *)
Definition sendGreeting (cfg : Config) (env : Env) : M unit :=
  ready <- gets sessionReady ;;
  when (upstreamOpen env && negb ready)
    (modify (set_sessionReady true) ;;
     emit (UpstreamSend (Realtime.response_create
       ("Say exactly: " ++ quote ++ greetingMessage cfg ++ quote))) ;;
     logMessage env "assistant" (greetingMessage cfg) Store.greeting).

(** [openaiWs.on('message', async (data) => { try { switch ... } catch }] *)
Definition on_upstream_message {cm : JS.CaseMapping} (cfg : Config) (env : Env) (event : Realtime.Event)
  : M unit :=
  try_catch
    match event with
    | Realtime.malformed => throw
    | Realtime.session_created | Realtime.session_updated =>
        emit (ClientSend (Client.ready (sessionId cfg))) ;;
        sendGreeting cfg env
    | Realtime.speech_started =>
        modify (set_isWaiting true) ;;
        modify (set_buffered [])
    | Realtime.audio_delta delta =>
        when (clientOpen env) (emit (ClientSend (Client.audio delta)))
    | Realtime.audio_transcript_delta delta =>
        waiting <- gets isWaitingForUserTranscript ;;
        if waiting then
          buffered <- gets bufferedAssistantTranscript ;;
          modify (set_buffered (buffered ++ [delta])%list)
        else
          when (clientOpen env)
            (emit (ClientSend (Client.assistant_transcript delta)))
    | Realtime.audio_transcript_done transcript =>
        on_audio_transcript_done cfg env transcript
    | Realtime.input_transcription_completed transcript =>
        on_input_transcription_completed cfg env transcript
    | Realtime.error message =>
        when (clientOpen env)
          (emit (ClientSend (Client.error (JS.str_or message "Unknown error"))))
    | Realtime.other => ret tt
    end.

(** [clientWs.on('close', async () => { ... })] *)
Definition on_client_close (env : Env) : M unit :=
  emit UpstreamClose ;;
  try_catch
    (s <- salesSession_findUnique env ;;
     match Store.endedAt s with
     | None => salesSession_update env (Store.abandoned_patch (now env))
     | Some _ => ret tt
     end).

(** [openaiWs.on('error', ...)] *)
Definition on_upstream_error (env : Env) : M unit :=
  when (clientOpen env)
    (emit (ClientSend (Client.error "OpenAI connection error"))).

(** [openaiWs.on('close', ...)] *)
Definition on_upstream_close (env : Env) : M unit :=
  when (clientOpen env) (emit ClientClose).

(** What can happen to a connection. *)
Inductive Input :=
| Upstream (event : Realtime.Event)
| UpstreamError
| UpstreamClosed
| ClientClosed.

Definition handler {cm : JS.CaseMapping} (cfg : Config) (env : Env) (i : Input) : M unit :=
  match i with
  | Upstream event => on_upstream_message cfg env event
  | UpstreamError => on_upstream_error env
  | UpstreamClosed => on_upstream_close env
  | ClientClosed => on_client_close env
  end.

(** One handler run: the world after it and what it did. *)
Definition step {cm : JS.CaseMapping} (cfg : Config) (w : World) (env : Env) (i : Input)
  : World * list Effect :=
  match handler cfg env i w with (_, w', t) => (w', t) end.

(** A run of handlers, one after the other. *)
Fixpoint run {cm : JS.CaseMapping} (cfg : Config) (w : World) (inputs : list (Env * Input))
  : World * list Effect :=
  match inputs with
  | [] => (w, [])
  | (env, i) :: rest =>
      let (w1, t1) := step cfg w env i in
      let (w2, t2) := run cfg w1 rest in
      (w2, (t1 ++ t2)%list)
  end.

(** The worlds a run passes through, the first one left out. *)
Fixpoint worlds {cm : JS.CaseMapping} (cfg : Config) (w : World) (inputs : list (Env * Input))
  : list World :=
  match inputs with
  | [] => []
  | (env, i) :: rest =>
      let w1 := fst (step cfg w env i) in w1 :: worlds cfg w1 rest
  end.

(** *** Reading a trace *)

(** The outcomes written, in order. *)
Fixpoint commits (t : list Effect) : list Store.Outcome :=
  match t with
  | [] => []
  | SessionUpdate d :: r =>
      match Store.set_outcome d with
      | Some o => o :: commits r
      | None => commits r
      end
  | _ :: r => commits r
  end.

(** The requests made to the classifier, in order. *)
Fixpoint requests (t : list Effect) : list SaleAnalyzer.Request :=
  match t with
  | [] => []
  | Classify q :: r => q :: requests r
  | _ :: r => requests r
  end.

(** The frames sent to the client, in order. *)
Fixpoint sent (t : list Effect) : list Client.Msg :=
  match t with
  | [] => []
  | ClientSend m :: r => m :: sent r
  | _ :: r => sent r
  end.

Definition is_notification (m : Client.Msg) : bool :=
  match m with
  | Client.sale_made _ _ | Client.sale_denied _ _ => true
  | _ => false
  end.

Definition is_assistant_transcript (m : Client.Msg) : bool :=
  match m with Client.assistant_transcript _ => true | _ => false end.

Definition is_media (m : Client.Msg) : bool :=
  match m with
  | Client.audio _ | Client.assistant_transcript _ | Client.user_transcript _ => true
  | _ => false
  end.

Definition is_error (m : Client.Msg) : bool :=
  match m with Client.error _ => true | _ => false end.

Definition closes (e : Effect) : bool :=
  match e with ClientClose | UpstreamClose => true | _ => false end.

(** *** Shorthands for the two transcript inputs *)

Definition says (t : string) : Input :=
  Upstream (Realtime.input_transcription_completed t).

Definition replies (t : string) : Input :=
  Upstream (Realtime.audio_transcript_done t).

(** *** The specification's words, to compare the handlers with *)

(** The threshold the specification prescribes: 60 when the exit signal
    is present and 80 otherwise when the AI sells, 80 when the user
    sells. *)
Definition applicable_threshold (mode : string) (exitSignal : bool) : Z :=
  if String.eqb mode "ai_sells"
  then (if exitSignal then 60%Z else 80%Z)
  else 80%Z.

(** The session outcome a verdict stands for. *)
Definition outcome_of_verdict (o : string) : option Store.Outcome :=
  if String.eqb o "SALE_CONFIRMED" then Some Store.sale_made
  else if String.eqb o "SALE_DENIED" then Some Store.no_sale
  else None.

(** The text a transcript event carries. *)
Definition transcript_of (event : Realtime.Event) : string :=
  match event with
  | Realtime.input_transcription_completed t
  | Realtime.audio_transcript_done t
  | Realtime.audio_transcript_delta t => t
  | _ => EmptyString
  end.

(** *** More readers of a trace, and longer inputs *)

(** The message rows created, in order. *)
Fixpoint created (t : list Effect) : list Store.Message :=
  match t with
  | [] => []
  | MessageCreate m :: r => m :: created r
  | _ :: r => created r
  end.

(** The frames sent to the engine, in order. *)
Fixpoint upstream_sent (t : list Effect) : list Realtime.Cmd :=
  match t with
  | [] => []
  | UpstreamSend c :: r => c :: upstream_sent r
  | _ :: r => upstream_sent r
  end.

(** Assistant transcript deltas arriving one after the other, each under
    its own environment. *)
Definition fragments (ds : list (Env * string)) : list (Env * Input) :=
  map (fun d => (fst d, Upstream (Realtime.audio_transcript_delta (snd d)))) ds.

(** The session row never shows an outcome without an end time, nor an
    end time without an outcome. *)
Definition ended_iff_outcome (s : Store.Session) : Prop :=
  Store.outcome s = None <-> Store.endedAt s = None.

(** The phases the local variable can hold in a mode. *)
Definition phase_of_mode (mode : string) (p : Store.Phase) : bool :=
  if String.eqb mode "ai_sells" then
    match p with
    | Store.greeting | Store.discovery | Store.positioning | Store.closing => true
    | _ => false
    end
  else
    match p with
    | Store.greeting | Store.pitching => true
    | _ => false
    end.

(** The stored phase is the local one, or COMPLETED. *)
Definition phases_agree (w : World) : Prop :=
  Store.currentPhase (session w) = currentPhase w
  \/ Store.currentPhase (session w) = Store.completed.

(** The handler runs that reach the classifier, read off their inputs:
    when the AI sells, a finalized user transcript with the client socket
    open and the store up, once the phase is past GREETING or when the
    utterance carries the trigger phrase, the exit signal or the buy
    signal; when the user sells, a finalized non-empty assistant
    transcript with the store up, once the phase is past GREETING. *)
Definition verdict_due {cm : JS.CaseMapping} (cfg : Config) (w : World)
  (env : Env) (event : Realtime.Event) : bool :=
  match event with
  | Realtime.input_transcription_completed transcript =>
      String.eqb (salesMode cfg) "ai_sells"
      && clientOpen env && storeUp env
      && (saysTrigger cfg transcript
          || isExitSignal transcript
          || isBuySignal transcript
          || negb (Store.phase_eqb (currentPhase w) Store.greeting))
  | Realtime.audio_transcript_done transcript =>
      String.eqb (salesMode cfg) "user_sells"
      && storeUp env
      && negb (String.eqb transcript EmptyString)
      && negb (Store.phase_eqb (currentPhase w) Store.greeting)
  | _ => false
  end.

(** Does this input carry a user utterance with the trigger phrase? *)
Definition triggers {cm : JS.CaseMapping} (cfg : Config) (i : Input) : bool :=
  match i with
  | Upstream (Realtime.input_transcription_completed t) => saysTrigger cfg t
  | _ => false
  end.

(** *** Examples

    Small environments, configurations and conversations to run the
    handlers on.  Their strings are ASCII, so they run with the ASCII
    folding. *)

#[global] Existing Instance JS.ascii_case | 100.

Definition ai_sells_config : Config :=
  {| sessionId := "s-1"; salesMode := "ai_sells"; difficulty := "medium";
     triggerPhrase := None; greetingMessage := "Welcome!" |}.

Definition user_sells_config : Config :=
  {| sessionId := "s-1"; salesMode := "user_sells"; difficulty := "hard";
     triggerPhrase := None; greetingMessage := "Welcome!" |}.

Definition verdict (o : string) (c : Z) : SaleAnalyzer.ApiReply :=
  SaleAnalyzer.ApiObject
    {| SaleAnalyzer.r_outcome := Some o;
       SaleAnalyzer.r_confidence := Some c;
       SaleAnalyzer.r_reasoning := None;
       SaleAnalyzer.r_keyPhrase := None;
       SaleAnalyzer.r_popupHeadline := None;
       SaleAnalyzer.r_popupMessage := None |}.

(** Both sockets open, the store up. *)
Definition calm (r : SaleAnalyzer.ApiReply) (t : Z) : Env :=
  {| clientOpen := true; upstreamOpen := true; storeUp := true;
     reply := r; now := t |}.

(** A conversation the AI sells in, after the trigger phrase. *)
Definition in_discovery : World :=
  fst (run ai_sells_config initial
         [(calm SaleAnalyzer.ApiRejected 1, says "Sell me a pen")]).

(** A conversation the user sells in, after the first pitch. *)
Definition in_pitching : World :=
  fst (run user_sells_config initial
         [(calm SaleAnalyzer.ApiRejected 1, says "This pen never skips")]).

(** A session holding sixteen messages, the AI closing. *)
Definition long_session : World :=
  {| session := Store.update (Store.phase_patch Store.closing) Store.fresh;
     messages :=
       map (fun c => Store.mkMessage "user" c Store.closing)
         ["m1"; "m2"; "m3"; "m4"; "m5"; "m6"; "m7"; "m8"; "m9"; "m10";
          "m11"; "m12"; "m13"; "m14"; "m15"; "m16"];
     currentPhase := Store.closing;
     isWaitingForUserTranscript := false;
     bufferedAssistantTranscript := [];
     sessionReady := true |}.

(** Six user turns of one conversation, the trigger phrase said again in
    the last one; the classifier stays undecided throughout. *)
Definition six_turns : list (Env * Input) :=
  [(calm (verdict "UNDECIDED" 50) 1, says "Sell me a pen");
   (calm (verdict "UNDECIDED" 50) 2, says "I write a lot");
   (calm (verdict "UNDECIDED" 50) 3, says "mostly letters");
   (calm (verdict "UNDECIDED" 50) 4, says "tell me more");
   (calm (verdict "UNDECIDED" 50) 5, says "how much is it");
   (calm (verdict "UNDECIDED" 50) 6, says "hmm, sell me a pen again")].

(** The utterances a list of inputs carries. *)
Definition utterances (inputs : list (Env * Input)) : list string :=
  flat_map (fun x => match snd x with
                     | Upstream event => [transcript_of event]
                     | _ => []
                     end) inputs.

(** The other utterances the examples use. *)
Definition example_utterances : list string :=
  ["Goodbye"; "I give up"; "I write a lot"; "Interesting.";
   "No thanks, goodbye"; "Okay, I'll take it"; "Sell me a pen";
   "Sell me a pen, please"; "Sorry?"; "This pen never skips";
   "this pen never skips"; "Welcome!"; "Well, let me ask you.";
   "hello"; "hello there"; "hmm, sell me a pen again"; "how much is it";
   "maybe later"; "mostly letters"; "okay, I want to order it";
   "on second thought, no"; "tell me more"; "yes"; "yes please";
   "yes, I will take it"; "yes, I'll take it"].

End ChatHandler.

(** ** The client's own frames, [clientWs.on('message', ...)] *)

Module ClientInput.

(** A frame from the browser, by its [type]. *)
Inductive Frame :=
| audio (audio : string)
| text (text : string)
| other                  (* any other type *)
| malformed.             (* a frame JSON.parse rejects *)

(** What the handler sends to the engine. *)
Inductive Cmd :=
| input_audio_buffer_append (audio : string)
| conversation_item_create (text : string)   (* a user message item *)
| response_create.

(** One frame, given whether the engine socket is open. *)
Definition on_message (upstreamOpen : bool) (message : Frame) : list Cmd :=
  match message with
  | audio a =>
      if upstreamOpen then [input_audio_buffer_append a] else []
  | text t =>
      if upstreamOpen then [conversation_item_create t; response_create] else []
  | other | malformed => []
  end.

(** Frames one after the other, each with the socket state it meets. *)
Definition on_messages (frames : list (bool * Frame)) : list Cmd :=
  flat_map (fun f => on_message (fst f) (snd f)) frames.

(** The audio chunks among the commands. *)
Fixpoint appended (cs : list Cmd) : list string :=
  match cs with
  | [] => []
  | input_audio_buffer_append a :: r => a :: appended r
  | _ :: r => appended r
  end.

(** The commands that are not audio. *)
Fixpoint spoken (cs : list Cmd) : list Cmd :=
  match cs with
  | [] => []
  | input_audio_buffer_append _ :: r => spoken r
  | c :: r => c :: spoken r
  end.

(** The audio chunks received while the engine socket was open. *)
Fixpoint audio_received (frames : list (bool * Frame)) : list string :=
  match frames with
  | [] => []
  | (true, audio a) :: r => a :: audio_received r
  | _ :: r => audio_received r
  end.

(** The texts received while the engine socket was open. *)
Fixpoint text_received (frames : list (bool * Frame)) : list string :=
  match frames with
  | [] => []
  | (true, text t) :: r => t :: text_received r
  | _ :: r => text_received r
  end.

End ClientInput.

(** ** The configuration row and the routes that write the mode *)

Module AppConfig.

(** The columns of [appConfig] the chat handler and these routes use. *)
Record Row := mkRow {
  salesMode : string;
  difficulty : string;
  selectedVoice : string
}.

Definition modes : list string := ["ai_sells"; "user_sells"].
Definition levels : list string := ["easy"; "medium"; "hard"; "expert"].

(** [list.includes(x)] for a possibly missing string. *)
Definition includes (l : list string) (x : option string) : bool :=
  match x with
  | Some v => existsb (String.eqb v) l
  | None => false
  end.

(** Truthiness of a possibly missing string. *)
Definition truthy (x : option string) : bool :=
  match x with
  | Some (String _ _) => true
  | _ => false
  end.

(** The [data] of an [appConfig.updateMany]. *)
Record Patch := mkPatch {
  set_salesMode : option string;
  set_difficulty : option string;
  set_selectedVoice : option string
}.

Definition apply (d : Patch) (r : Row) : Row :=
  {| salesMode := Store.override (set_salesMode d) (salesMode r);
     difficulty := Store.override (set_difficulty d) (difficulty r);
     selectedVoice := Store.override (set_selectedVoice d) (selectedVoice r) |}.

Definition updateMany (d : Patch) (rows : list Row) : list Row :=
  map (apply d) rows.

(** The number of keys of a patch. *)
Definition is_set (x : option string) : bool :=
  match x with Some _ => true | None => false end.

Definition keys (d : Patch) : nat :=
  length (filter is_set [set_salesMode d; set_difficulty d; set_selectedVoice d]).

(** The requests that write the mode, the difficulty or the voice. *)
Inductive Request :=
| post_api_config (salesMode difficulty selectedVoice : option string)
| post_voices_mode (mode : option string)
| post_voices_difficulty (difficulty : option string)
| post_voices_select (voice : option string).

(** [updateData] of [POST /api/config]. *)
Definition updateData (salesMode difficulty selectedVoice : option string) : Patch :=
  {| set_salesMode :=
       if truthy salesMode && includes modes salesMode then salesMode else None;
     set_difficulty :=
       if truthy difficulty && includes levels difficulty then difficulty else None;
     set_selectedVoice :=
       if truthy selectedVoice then selectedVoice else None |}.

(** One request: the status answered and the rows afterwards; [storeUp]
    says whether the Prisma call of the route resolves. *)
Definition handle (storeUp : bool) (q : Request) (rows : list Row)
  : nat * list Row :=
  match q with
  | post_api_config m d v =>
      if (0 <? keys (updateData m d v))%nat then
        if storeUp then (200, updateMany (updateData m d v) rows)
        else (500, rows)
      else (200, rows)
  | post_voices_mode mode =>
      if negb (includes modes mode) then (400, rows)
      else if storeUp
           then (200, updateMany (mkPatch mode None None) rows)
           else (500, rows)
  | post_voices_difficulty d =>
      if negb (includes levels d) then (400, rows)
      else if storeUp
           then (200, updateMany (mkPatch None d None) rows)
           else (500, rows)
  | post_voices_select voice =>
      if storeUp
      then (200, updateMany (mkPatch None None voice) rows)
      else (500, rows)
  end.

(** Requests one after the other. *)
Fixpoint serve (qs : list (bool * Request)) (rows : list Row) : list Row :=
  match qs with
  | [] => rows
  | (up, q) :: r => serve r (snd (handle up q rows))
  end.

(** What [handleChatConnection] reads at connection time:
    [config?.salesMode || 'ai_sells'] and [config?.difficulty || 'medium']
    of [appConfig.findFirst()]. *)
Definition loaded_mode (rows : list Row) : string :=
  JS.str_or (option_map salesMode (hd_error rows)) "ai_sells".

Definition loaded_difficulty (rows : list Row) : string :=
  JS.str_or (option_map difficulty (hd_error rows)) "medium".

Definition valid (r : Row) : Prop :=
  In (salesMode r) modes /\ In (difficulty r) levels.

End AppConfig.

(** * Properties *)

Import ChatHandler.

(** ** The examples are ASCII

    The phrase lists of the handler, the default trigger phrase, the
    roles and every utterance of the examples are strings of ASCII
    characters: on them the ASCII folding is the runtime's case
    mapping. *)
Lemma examples_are_ascii :
  forallb JS.is_ascii
    (exitPhrases ++ buyPhrases ++ giveUpPhrases
     ++ ["sell me a pen"; "user"; "assistant"]
     ++ utterances six_turns ++ example_utterances
     ++ map Store.content (messages long_session))%list = true.
Proof. vm_compute. reflexivity. Qed.

(** ** Traces *)

Lemma commits_app (t1 t2 : list Effect) :
  commits (t1 ++ t2) = (commits t1 ++ commits t2)%list.
Proof.
  induction t1 as [|e t1 IH]; [reflexivity|].
  destruct e; cbn; auto.
  destruct (Store.set_outcome d); cbn; now rewrite IH.
Qed.

Lemma requests_app (t1 t2 : list Effect) :
  requests (t1 ++ t2) = (requests t1 ++ requests t2)%list.
Proof.
  induction t1 as [|e t1 IH]; [reflexivity|].
  destruct e; cbn; auto. now rewrite IH.
Qed.

Lemma sent_app (t1 t2 : list Effect) :
  sent (t1 ++ t2) = (sent t1 ++ sent t2)%list.
Proof.
  induction t1 as [|e t1 IH]; [reflexivity|].
  destruct e; cbn; auto. now rewrite IH.
Qed.

(** ** Running a handler symbolically *)

(** Unfold the monad and the handlers, nothing else; the commits stay
    folded. *)
Ltac unfold_turn :=
  cbv beta iota zeta delta
    [step handler says replies on_upstream_message on_input_transcription_completed
     on_audio_transcript_done on_client_close on_upstream_error
     on_upstream_close sendGreeting
     ai_sells_turn advance_phase detect_sale user_sells_turn flush_buffered
     await_analysis SaleAnalyzer.detectSaleOutcome SaleAnalyzer.analyzeWithAI
     SaleAnalyzer.detectUserSaleOutcome
     logMessage message_create salesSession_update message_count_user
     message_findMany salesSession_findUnique
     bind ret throw try_catch emit gets modify when
     clientOpen upstreamOpen storeUp reply now
     currentPhase isWaitingForUserTranscript bufferedAssistantTranscript
     sessionReady session messages
     set_currentPhase set_isWaiting set_buffered set_sessionReady
     with_session add_message fst snd].

(** The same, and the commits. *)
Ltac unfold_handlers :=
  unfold_turn;
  cbv beta iota zeta delta
    [act_on_analysis commit_sale_made commit_sale_denied
     salesSession_update
     bind ret throw try_catch emit gets modify when
     clientOpen upstreamOpen storeUp reply now
     currentPhase isWaitingForUserTranscript bufferedAssistantTranscript
     sessionReady session messages
     set_currentPhase set_isWaiting set_buffered set_sessionReady
     with_session add_message fst snd].

(** Split on the first test the run is stuck on. *)
Ltac split_test :=
  match goal with
  | |- context [if ?c then _ else _] => destruct c eqn:?
  end.

Ltac run_turn := unfold_turn; repeat (split_test; unfold_turn).
Ltac run_handler := unfold_handlers; repeat (split_test; unfold_handlers).

(** Handlers up to the mode's half of the user turn and the flush. *)
Ltac unfold_outer :=
  cbv beta iota zeta delta
    [step handler says replies on_upstream_message on_input_transcription_completed
     logMessage message_create
     bind ret throw try_catch emit gets modify when
     clientOpen upstreamOpen storeUp reply now
     currentPhase isWaitingForUserTranscript bufferedAssistantTranscript
     sessionReady session messages
     set_currentPhase set_isWaiting set_buffered set_sessionReady
     with_session add_message fst snd].

(** Read the commits, requests and frames off an explicit trace. *)
Ltac read_trace :=
  cbn [commits requests sent filter is_error is_notification is_media
       is_assistant_transcript closes
       Store.set_outcome Store.set_currentPhase Store.set_endedAt
       Store.set_saleConfirmed Store.phase_patch Store.outcome_patch
       Store.abandoned_patch Store.update Store.outcome Store.endedAt
       Store.currentPhase Store.keep Store.override fst snd app].

(** ** The socket guard of the user turn *)

(** C10. When the client socket is not open as a finalized user
    transcript arrives, the whole user turn is skipped: nothing is sent,
    written or asked, the phase and the buffer are as they were, and only
    [isWaitingForUserTranscript] is reset. *)
Theorem closed_client_skips_user_turn {cm : JS.CaseMapping} :
  forall (cfg : Config) (w : World) (env : Env) (transcript : string),
    clientOpen env = false ->
    step cfg w env (says transcript) = (set_isWaiting false w, []).
Proof.
  intros cfg w [co uo su rp nw] transcript H. cbn in H. subst co.
  reflexivity.
Qed.

Lemma closed_client_skips_user_turn_witness :
  step ai_sells_config
    (set_buffered ["A"; "B"] (set_isWaiting true initial))
    {| clientOpen := false; upstreamOpen := true; storeUp := true;
       reply := verdict "SALE_CONFIRMED" 95; now := 7 |}
    (says "yes, I'll take it")
  = (set_buffered ["A"; "B"] initial, []).
Proof.
  exact (closed_client_skips_user_turn ai_sells_config
           (set_buffered ["A"; "B"] (set_isWaiting true initial))
           {| clientOpen := false; upstreamOpen := true; storeUp := true;
              reply := verdict "SALE_CONFIRMED" 95; now := 7 |}
           "yes, I'll take it" eq_refl).
Defined.

(** ** Classification failure *)

Lemma settle_failed (failed : SaleAnalyzer.ApiReply) :
  failed = SaleAnalyzer.ApiRejected \/ failed = SaleAnalyzer.ApiUnparseable ->
  SaleAnalyzer.settle failed = SaleAnalyzer.analysis_error.
Proof. intros [-> | ->]; reflexivity. Qed.

Lemma confidenceThreshold_pos (b : bool) : (0 < confidenceThreshold b)%Z.
Proof. destruct b; cbn; lia. Qed.

(** With the fallback result no branch of the confidence test is taken. *)
Lemma act_on_failed (env : Env) (threshold : Z) (mh mm dh dm : string) :
  (0 < threshold)%Z ->
  act_on_analysis env threshold SaleAnalyzer.analysis_error mh mm dh dm = ret tt.
Proof.
  intros H. unfold act_on_analysis.
  cbn [SaleAnalyzer.confidence SaleAnalyzer.analysis_error].
  destruct (Z.leb_spec threshold 0); [lia | reflexivity].
Qed.

(** C9. When the completion request is rejected or its content does not
    parse, [detectSaleOutcome] and [detectUserSaleOutcome] return outcome
    UNDECIDED with confidence 0 (they return, they do not throw); and a
    handler run that asked the classifier and got such a failure commits
    nothing, sends the client neither an error frame nor an outcome
    notification, closes no socket and leaves the session's outcome and
    end time as they were. *)
Theorem classification_failure_is_undecided {cm : JS.CaseMapping} :
  forall (cfg : Config) (w : World) (env : Env) (event : Realtime.Event)
         (history : list SaleAnalyzer.ChatMsg) (level : string),
    reply env = SaleAnalyzer.ApiRejected
    \/ reply env = SaleAnalyzer.ApiUnparseable ->
    let a := snd (SaleAnalyzer.detectSaleOutcome history (reply env)) in
    let b := snd (SaleAnalyzer.detectUserSaleOutcome history level (reply env)) in
    let w' := fst (step cfg w env (Upstream event)) in
    let t := snd (step cfg w env (Upstream event)) in
    (SaleAnalyzer.outcome a = "UNDECIDED" /\ SaleAnalyzer.confidence a = 0%Z)
    /\ (SaleAnalyzer.outcome b = "UNDECIDED" /\ SaleAnalyzer.confidence b = 0%Z)
    /\ (requests t = []
        \/ (commits t = []
            /\ filter is_error (sent t) = []
            /\ filter is_notification (sent t) = []
            /\ filter closes t = []
            /\ Store.outcome (session w') = Store.outcome (session w)
            /\ Store.endedAt (session w') = Store.endedAt (session w))).
Proof.
  intros cfg w [co uo su rp nw] event history level Hf.
  cbn [reply] in Hf. pose proof (settle_failed rp Hf) as Hs.
  intros a b w' t; subst a b w' t. cbn [reply].
  split; [|split].
  - cbn. rewrite Hs. split; reflexivity.
  - cbn. rewrite Hs. split; reflexivity.
  - pose proof confidenceThreshold_pos as Hpos.
    destruct event.
    all: run_turn.
    all: try (left; read_trace; reflexivity).
    all: right.
    all: rewrite Hs.
    all: rewrite act_on_failed by (auto; lia).
    all: run_turn.
    all: read_trace; intuition congruence.
Qed.

Lemma classification_failure_is_undecided_witness :
  let cfg := ai_sells_config in
  let w := set_currentPhase Store.closing initial in
  let env := calm SaleAnalyzer.ApiRejected 5 in
  let history := [SaleAnalyzer.mkChat "user" "yes please"] in
  let a := snd (SaleAnalyzer.detectSaleOutcome history (reply env)) in
  let b := snd (SaleAnalyzer.detectUserSaleOutcome history "hard" (reply env)) in
  let w' := fst (step cfg w env (says "yes please")) in
  let t := snd (step cfg w env (says "yes please")) in
  (SaleAnalyzer.outcome a = "UNDECIDED" /\ SaleAnalyzer.confidence a = 0%Z)
  /\ (SaleAnalyzer.outcome b = "UNDECIDED" /\ SaleAnalyzer.confidence b = 0%Z)
  /\ (requests t = []
      \/ (commits t = []
          /\ filter is_error (sent t) = []
          /\ filter is_notification (sent t) = []
          /\ filter closes t = []
          /\ Store.outcome (session w') = Store.outcome (session w)
          /\ Store.endedAt (session w') = Store.endedAt (session w))).
Proof.
  exact (classification_failure_is_undecided ai_sells_config
           (set_currentPhase Store.closing initial)
           (calm SaleAnalyzer.ApiRejected 5)
           (Realtime.input_transcription_completed "yes please")
           [SaleAnalyzer.mkChat "user" "yes please"] "hard"
           (or_introl eq_refl)).
Defined.

(** ** The confidence threshold *)

Lemma act_confirmed (env : Env) (threshold : Z) (a : SaleAnalyzer.AnalysisResult)
  (mh mm dh dm : string) :
  SaleAnalyzer.outcome a = "SALE_CONFIRMED" ->
  act_on_analysis env threshold a mh mm dh dm =
  if (threshold <=? SaleAnalyzer.confidence a)%Z
  then commit_sale_made env a mh mm else ret tt.
Proof. intros H. unfold act_on_analysis. rewrite H. reflexivity. Qed.

Lemma act_denied (env : Env) (threshold : Z) (a : SaleAnalyzer.AnalysisResult)
  (mh mm dh dm : string) :
  SaleAnalyzer.outcome a = "SALE_DENIED" ->
  act_on_analysis env threshold a mh mm dh dm =
  if (threshold <=? SaleAnalyzer.confidence a)%Z
  then commit_sale_denied env a dh dm else ret tt.
Proof. intros H. unfold act_on_analysis. rewrite H. reflexivity. Qed.

Lemma applicable_ai_sells (mode : string) (b : bool) :
  String.eqb mode "ai_sells" = true ->
  applicable_threshold mode b = confidenceThreshold b.
Proof. intros H. unfold applicable_threshold. now rewrite H. Qed.

Lemma applicable_user_sells (mode : string) (b c : bool) :
  String.eqb mode "user_sells" && c = true ->
  applicable_threshold mode b = 80%Z.
Proof.
  intros H. apply andb_prop in H. destruct H as [H _].
  apply String.eqb_eq in H. subst mode. reflexivity.
Qed.

(** Once the classifier has been asked and has answered SALE_CONFIRMED or
    SALE_DENIED, the confidence alone decides. *)
Lemma commit_follows_threshold {cm : JS.CaseMapping} :
  forall (cfg : Config) (w : World) (env : Env) (event : Realtime.Event),
    let a := SaleAnalyzer.settle (reply env) in
    let threshold :=
      applicable_threshold (salesMode cfg) (isExitSignal (transcript_of event)) in
    let w' := fst (step cfg w env (Upstream event)) in
    let t := snd (step cfg w env (Upstream event)) in
    requests t <> [] ->
    SaleAnalyzer.outcome a = "SALE_CONFIRMED"
    \/ SaleAnalyzer.outcome a = "SALE_DENIED" ->
    (if (threshold <=? SaleAnalyzer.confidence a)%Z then
       Some (commits t) = option_map (fun o => [o])
                            (outcome_of_verdict (SaleAnalyzer.outcome a))
       /\ Store.outcome (session w') = outcome_of_verdict (SaleAnalyzer.outcome a)
       /\ Store.endedAt (session w') = Some (now env)
       /\ Store.currentPhase (session w') = Store.completed
       /\ length (filter is_notification (sent t)) = 1
     else
       commits t = []
       /\ filter is_notification (sent t) = []
       /\ Store.outcome (session w') = Store.outcome (session w)
       /\ Store.endedAt (session w') = Store.endedAt (session w)
       /\ (Store.currentPhase (session w) <> Store.completed ->
           Store.currentPhase (session w') <> Store.completed)).
Proof.
  intros cfg w [co uo su rp nw] event a threshold w' t.
  subst w' t threshold a. cbn [reply now].
  destruct event; cbn [transcript_of].
  all: run_turn.
  all: try (intros Hreq _; exfalso; apply Hreq; read_trace; reflexivity).
  all: intros _.
  all: remember (SaleAnalyzer.settle rp) as a eqn:Ea in *; clear Ea; intros Ho.
  all: match goal with
       | H : String.eqb _ "ai_sells" = true |- _ =>
           rewrite (applicable_ai_sells _ _ H) in *
       | H : String.eqb _ "user_sells" && _ = true |- _ =>
           rewrite (applicable_user_sells _ _ _ H) in *
       end.
  all: destruct Ho as [Ho | Ho];
    [rewrite (act_confirmed _ _ _ _ _ _ _ Ho)
    | rewrite (act_denied _ _ _ _ _ _ _ Ho)]; try rewrite Ho.
  all: match goal with H : (_ <=? _)%Z = _ |- _ => rewrite H end.
  all: run_handler.
  all: read_trace.
  all: try change (outcome_of_verdict "SALE_CONFIRMED") with (Some Store.sale_made).
  all: try change (outcome_of_verdict "SALE_DENIED") with (Some Store.no_sale).
  all: cbn [option_map length].
  all: repeat split; try reflexivity; try congruence.
Qed.


(** The classifier is asked, once, on the runs [verdict_due] names and on
    no other. *)
Lemma asked_iff_due {cm : JS.CaseMapping} (cfg : Config) (w : World) (env : Env)
  (event : Realtime.Event) :
  length (requests (snd (step cfg w env (Upstream event))))
  = if verdict_due cfg w env event then 1 else 0.
Proof.
  destruct env as [co uo su rp nw], w as [s m p b l r].
  destruct event; cbn [verdict_due clientOpen storeUp currentPhase].
  all: try (run_handler; read_trace; reflexivity).
  - (* the assistant's transcript *)
    unfold_handlers.
    destruct (String.eqb transcript EmptyString), su,
      (String.eqb (salesMode cfg) "user_sells"), p;
      cbn [negb andb Store.phase_eqb]; run_handler; read_trace; reflexivity.
  - (* the user's transcript *)
    unfold_handlers. cbv beta iota zeta delta [detection_runs].
    destruct (saysTrigger cfg transcript), (isExitSignal transcript),
      (isBuySignal transcript), co, su,
      (String.eqb (salesMode cfg) "ai_sells"), p;
      cbn [negb andb orb Store.phase_eqb]; run_handler.
    all: cbn [negb andb orb Store.phase_eqb] in *; try discriminate.
    all: read_trace; reflexivity.
Qed.

(** C4. On every handler run that is due a verdict the classifier is
    asked, once; when its verdict is SALE_CONFIRMED or SALE_DENIED the
    run commits exactly when the confidence reaches the applicable
    threshold (60 with the exit signal and 80 without when the AI sells;
    80 when the user sells, whatever the signals): then the outcome is
    written once, with the end time and the phase COMPLETED, and one
    notification is sent; otherwise nothing is committed, nothing is
    notified, and the stored phase does not become COMPLETED.  On any
    other run the classifier is not asked. *)
Theorem threshold_decides_commit {cm : JS.CaseMapping} :
  forall (cfg : Config) (w : World) (env : Env) (event : Realtime.Event),
    let a := SaleAnalyzer.settle (reply env) in
    let threshold :=
      applicable_threshold (salesMode cfg) (isExitSignal (transcript_of event)) in
    let w' := fst (step cfg w env (Upstream event)) in
    let t := snd (step cfg w env (Upstream event)) in
    SaleAnalyzer.outcome a = "SALE_CONFIRMED"
    \/ SaleAnalyzer.outcome a = "SALE_DENIED" ->
    if verdict_due cfg w env event then
      length (requests t) = 1
      /\ (if (threshold <=? SaleAnalyzer.confidence a)%Z then
            Some (commits t) = option_map (fun o => [o])
                                 (outcome_of_verdict (SaleAnalyzer.outcome a))
            /\ Store.outcome (session w') = outcome_of_verdict (SaleAnalyzer.outcome a)
            /\ Store.endedAt (session w') = Some (now env)
            /\ Store.currentPhase (session w') = Store.completed
            /\ length (filter is_notification (sent t)) = 1
          else
            commits t = []
            /\ filter is_notification (sent t) = []
            /\ Store.outcome (session w') = Store.outcome (session w)
            /\ Store.endedAt (session w') = Store.endedAt (session w)
            /\ (Store.currentPhase (session w) <> Store.completed ->
                Store.currentPhase (session w') <> Store.completed))
    else requests t = [].
Proof.
  intros cfg w env event a threshold w' t Ho.
  pose proof (asked_iff_due cfg w env event) as Hn. fold t in Hn.
  destruct (verdict_due cfg w env event).
  - split; [exact Hn |].
    apply (commit_follows_threshold cfg w env event); [| exact Ho].
    fold t. intros E. rewrite E in Hn. discriminate.
  - now destruct (requests t).
Qed.

Lemma threshold_decides_commit_witness :
  let denied := calm (verdict "SALE_DENIED" 70) 9 in
  let confirmed := calm (verdict "SALE_CONFIRMED" 85) 9 in
  let leaving := step ai_sells_config in_discovery denied (says "Goodbye") in
  let staying := step ai_sells_config in_discovery denied (says "maybe later") in
  let refusing := step user_sells_config in_pitching denied (replies "No thanks, goodbye") in
  let buying := step user_sells_config in_pitching confirmed (replies "Okay, I'll take it") in
  (length (requests (snd leaving)) = 1
   /\ Some (commits (snd leaving)) = Some [Store.no_sale]
   /\ Store.outcome (session (fst leaving)) = Some Store.no_sale
   /\ Store.endedAt (session (fst leaving)) = Some 9%Z
   /\ Store.currentPhase (session (fst leaving)) = Store.completed
   /\ length (filter is_notification (sent (snd leaving))) = 1)
  /\ (length (requests (snd staying)) = 1
      /\ commits (snd staying) = []
      /\ filter is_notification (sent (snd staying)) = []
      /\ Store.outcome (session (fst staying)) = Store.outcome (session in_discovery)
      /\ Store.endedAt (session (fst staying)) = Store.endedAt (session in_discovery)
      /\ (Store.currentPhase (session in_discovery) <> Store.completed ->
          Store.currentPhase (session (fst staying)) <> Store.completed))
  /\ (length (requests (snd refusing)) = 1
      /\ commits (snd refusing) = []
      /\ filter is_notification (sent (snd refusing)) = []
      /\ Store.outcome (session (fst refusing)) = Store.outcome (session in_pitching)
      /\ Store.endedAt (session (fst refusing)) = Store.endedAt (session in_pitching)
      /\ (Store.currentPhase (session in_pitching) <> Store.completed ->
          Store.currentPhase (session (fst refusing)) <> Store.completed))
  /\ (length (requests (snd buying)) = 1
      /\ Some (commits (snd buying)) = Some [Store.sale_made]
      /\ Store.outcome (session (fst buying)) = Some Store.sale_made
      /\ Store.endedAt (session (fst buying)) = Some 9%Z
      /\ Store.currentPhase (session (fst buying)) = Store.completed
      /\ length (filter is_notification (sent (snd buying))) = 1).
Proof.
  split; [| split; [| split]].
  - exact (threshold_decides_commit ai_sells_config in_discovery
             (calm (verdict "SALE_DENIED" 70) 9)
             (Realtime.input_transcription_completed "Goodbye")
             (or_intror eq_refl)).
  - exact (threshold_decides_commit ai_sells_config in_discovery
             (calm (verdict "SALE_DENIED" 70) 9)
             (Realtime.input_transcription_completed "maybe later")
             (or_intror eq_refl)).
  - exact (threshold_decides_commit user_sells_config in_pitching
             (calm (verdict "SALE_DENIED" 70) 9)
             (Realtime.audio_transcript_done "No thanks, goodbye")
             (or_intror eq_refl)).
  - exact (threshold_decides_commit user_sells_config in_pitching
             (calm (verdict "SALE_CONFIRMED" 85) 9)
             (Realtime.audio_transcript_done "Okay, I'll take it")
             (or_introl eq_refl)).
Defined.

(** ** The transcript buffer *)

(** The mode's half of the user turn runs to its end when the store is
    up; it leaves the buffer alone and sends no assistant transcript. *)
Lemma turn_keeps_buffer {cm : JS.CaseMapping} (cfg : Config) (env : Env) (transcript : string) (w : World) :
  storeUp env = true ->
  exists w' t,
    (if String.eqb (salesMode cfg) "ai_sells"
     then ai_sells_turn cfg env transcript
     else user_sells_turn env transcript) w = (Some tt, w', t)
    /\ bufferedAssistantTranscript w' = bufferedAssistantTranscript w
    /\ filter is_assistant_transcript (sent t) = [].
Proof.
  destruct env as [co uo su rp nw]. cbn [storeUp]. intros ->.
  run_handler.
  all: eexists; eexists; split; [reflexivity|].
  all: read_trace; split; reflexivity.
Qed.

(** C6. After a speech-start event, three assistant fragments are
    buffered and nothing is sent to the client while they arrive; when
    the user's transcript is finalized (client socket open, store up)
    the client receives exactly one assistant transcript frame, whose
    text is the fragments concatenated in order, and the buffer is empty
    afterwards. *)
Theorem buffered_fragments_flush_once {cm : JS.CaseMapping} :
  forall (cfg : Config) (w : World) (e0 e1 e2 e3 env : Env)
         (a b c transcript : string),
    clientOpen env = true ->
    storeUp env = true ->
    let buffering :=
      run cfg w
        [(e0, Upstream Realtime.speech_started);
         (e1, Upstream (Realtime.audio_transcript_delta a));
         (e2, Upstream (Realtime.audio_transcript_delta b));
         (e3, Upstream (Realtime.audio_transcript_delta c))] in
    let finalized := step cfg (fst buffering) env (says transcript) in
    sent (snd buffering) = []
    /\ bufferedAssistantTranscript (fst buffering) = [a; b; c]
    /\ filter is_assistant_transcript (sent (snd finalized))
       = [Client.assistant_transcript (a ++ b ++ c)]
    /\ bufferedAssistantTranscript (fst finalized) = []
    /\ isWaitingForUserTranscript (fst finalized) = false.
Proof.
  intros cfg w e0 e1 e2 e3 [co uo su rp nw] a b c transcript Hc Hs.
  cbn [clientOpen storeUp] in Hc, Hs. subst co su.
  intros buffering finalized.
  assert (Hb : buffering =
               (set_buffered [a; b; c] (set_isWaiting true w), []))
    by reflexivity.
  subst finalized. rewrite Hb. cbn [fst snd sent].
  split; [reflexivity | split; [reflexivity |]].
  unfold_outer.
  match goal with
  | |- context [(if _ then ai_sells_turn _ ?e _ else _) ?w1] =>
      destruct (turn_keeps_buffer cfg e transcript w1 eq_refl)
        as (w2 & t2 & E & Hbuf & Hsent);
      rewrite E
  end.
  destruct w2 as [s2 m2 p2 i2 b2 r2].
  cbn [bufferedAssistantTranscript set_buffered set_isWaiting add_message] in Hbuf.
  subst b2.
  unfold flush_buffered. unfold_outer.
  cbn [length Nat.ltb Nat.leb]. unfold_outer.
  cbn [app String.concat append].
  rewrite app_nil_r. cbn [sent filter is_assistant_transcript].
  rewrite sent_app, filter_app, Hsent.
  split; [reflexivity | split; reflexivity].
Qed.

Lemma buffered_fragments_flush_once_witness :
  let quiet := calm SaleAnalyzer.ApiRejected 3 in
  let buffering :=
    run ai_sells_config initial
      [(quiet, Upstream Realtime.speech_started);
       (quiet, Upstream (Realtime.audio_transcript_delta "A"));
       (quiet, Upstream (Realtime.audio_transcript_delta "B"));
       (quiet, Upstream (Realtime.audio_transcript_delta "C"))] in
  let finalized := step ai_sells_config (fst buffering) quiet (says "hello") in
  sent (snd buffering) = []
  /\ bufferedAssistantTranscript (fst buffering) = ["A"; "B"; "C"]
  /\ filter is_assistant_transcript (sent (snd finalized))
     = [Client.assistant_transcript "ABC"]
  /\ bufferedAssistantTranscript (fst finalized) = []
  /\ isWaitingForUserTranscript (fst finalized) = false.
Proof.
  exact (buffered_fragments_flush_once ai_sells_config initial
           (calm SaleAnalyzer.ApiRejected 3) (calm SaleAnalyzer.ApiRejected 3)
           (calm SaleAnalyzer.ApiRejected 3) (calm SaleAnalyzer.ApiRejected 3)
           (calm SaleAnalyzer.ApiRejected 3) "A" "B" "C" "hello"
           eq_refl eq_refl).
Defined.

(** ** Write-once outcome *)

(** The close handler checks [endedAt] before it writes: a session that
    has ended keeps its row. *)
Lemma client_close_keeps_ended_session {cm : JS.CaseMapping} (cfg : Config) (w : World) (env : Env) :
  Store.endedAt (session w) <> None ->
  step cfg w env ClientClosed = (w, [UpstreamClose]).
Proof.
  intros H. destruct env as [co uo su rp nw], w as [s m p i b r].
  cbn [session] in H.
  unfold_turn. destruct su; unfold_turn; [|reflexivity].
  destruct (Store.endedAt s); [reflexivity | congruence].
Qed.

(** C1. The commits of the decision paths are not write-once: after a
    SALE_CONFIRMED verdict has set the outcome to sale_made and the end
    time to 10, a SALE_DENIED verdict on the next user turn sets the
    outcome to no_sale and the end time to 20. *)
Theorem second_verdict_overwrites_outcome :
  let first :=
    step ai_sells_config in_discovery
      (calm (verdict "SALE_CONFIRMED" 95) 10) (says "okay, I want to order it") in
  let second :=
    step ai_sells_config (fst first)
      (calm (verdict "SALE_DENIED" 90) 20) (says "on second thought, no") in
  Store.outcome (session (fst first)) = Some Store.sale_made
  /\ Store.endedAt (session (fst first)) = Some 10%Z
  /\ commits (snd second) = [Store.no_sale]
  /\ Store.outcome (session (fst second)) = Some Store.no_sale
  /\ Store.endedAt (session (fst second)) = Some 20%Z.
Proof. vm_compute. repeat split; reflexivity. Qed.

(** The same for a session marked abandoned: when the user sells, a
    verdict on an assistant transcript that arrives after the client has
    gone replaces [abandoned]. *)
Lemma late_verdict_overwrites_abandoned :
  let gone :=
    run user_sells_config initial
      [(calm SaleAnalyzer.ApiRejected 1, says "this pen never skips");
       (calm SaleAnalyzer.ApiRejected 2, ClientClosed)] in
  let late :=
    step user_sells_config (fst gone)
      {| clientOpen := false; upstreamOpen := false; storeUp := true;
         reply := verdict "SALE_CONFIRMED" 90; now := 3 |}
      (replies "Okay, I'll take it") in
  Store.outcome (session (fst gone)) = Some Store.abandoned
  /\ Store.outcome (session (fst late)) = Some Store.sale_made
  /\ Store.endedAt (session (fst late)) = Some 3%Z.
Proof. vm_compute. repeat split; reflexivity. Qed.

(** ** Phase order *)

(** C2. The phase can go back: along six user turns of one conversation
    the local and the stored phase reach CLOSING at the fifth turn, and
    the trigger phrase in the sixth turn takes both to POSITIONING. *)
Theorem trigger_phrase_moves_phase_back :
  let ws := worlds ai_sells_config initial six_turns in
  saysTrigger ai_sells_config "hmm, sell me a pen again" = true
  /\ map currentPhase ws
     = [Store.discovery; Store.discovery; Store.positioning;
        Store.positioning; Store.closing; Store.positioning]
  /\ map (fun w => Store.currentPhase (session w)) ws = map currentPhase ws
  /\ Store.rank Store.positioning < Store.rank Store.closing.
Proof. vm_compute. repeat split; auto. Qed.

(** The step back is not special to that run: whenever the trigger phrase
    is said in CLOSING with two user messages or more on record, the
    phase is POSITIONING afterwards. *)
Lemma trigger_in_closing {cm : JS.CaseMapping} (cfg : Config) (w : World) (env : Env) (transcript : string) :
  salesMode cfg = "ai_sells" ->
  clientOpen env = true ->
  storeUp env = true ->
  currentPhase w = Store.closing ->
  saysTrigger cfg transcript = true ->
  2 <= Store.count_user (messages w) ->
  currentPhase (fst (step cfg w env (says transcript))) = Store.positioning.
Proof.
  intros Hm Hc Hs Hp Ht Hn.
  destruct env as [co uo su rp nw], w as [s m p i b r].
  cbn [clientOpen storeUp currentPhase messages] in *. subst co su p.
  assert (Hcount : (3 <=? Store.count_user
                            (m ++ [Store.mkMessage "user" transcript Store.closing]))%nat
                   = true).
  { apply Nat.leb_le. unfold Store.count_user in *.
    rewrite filter_app, length_app. cbn. lia. }
  unfold_turn. rewrite Hm, Ht.
  cbn [String.eqb Ascii.eqb Bool.eqb]. unfold_turn.
  rewrite Hcount. cbn [Store.phase_eqb andb]. unfold_turn.
  run_handler; reflexivity.
Qed.

(** Without the trigger phrase a user turn never takes the local phase
    back, in either mode. *)
Lemma phase_monotone_without_trigger {cm : JS.CaseMapping} (cfg : Config) (w : World) (env : Env)
  (transcript : string) :
  saysTrigger cfg transcript = false ->
  Store.rank (currentPhase w)
  <= Store.rank (currentPhase (fst (step cfg w env (says transcript)))).
Proof.
  intros Ht. destruct env as [co uo su rp nw], w as [s m p i b r].
  unfold_handlers. rewrite Ht. run_handler.
  all: try (cbn [Store.rank]; lia).
  all: destruct p; cbn in *; try discriminate; lia.
Qed.

(** The user-sells branch guards its only transition with the current
    phase, so there the local phase never goes back. *)
Lemma user_turn_phase_monotone {cm : JS.CaseMapping} (w : World) (env : Env) (transcript : string) :
  Store.rank (currentPhase w)
  <= Store.rank (currentPhase (fst (step user_sells_config w env (says transcript)))).
Proof.
  destruct env as [co uo su rp nw].
  unfold_handlers. cbn [salesMode user_sells_config String.eqb Ascii.eqb Bool.eqb].
  repeat (split_test; unfold_handlers).
  all: try (cbn [Store.rank]; lia).
  all: destruct (currentPhase w) eqn:E;
    cbv [currentPhase] in E; rewrite E in *; cbn in *; try discriminate; lia.
Qed.

(** ** The transcript window *)

(** [findMany] with [createdAt: 'asc'] and [take: 15] keeps the oldest
    fifteen rows, and [slice(-10)] the last ten of those: rows 6 to 15 of
    the conversation, however long it is. *)
Lemma window_of_long_history (ms : list Store.Message) :
  15 <= length ms ->
  JS.slice_last 10 (map to_chat (Store.findMany_asc_take15 ms))
  = map to_chat (firstn 10 (skipn 5 ms)).
Proof.
  intros H. unfold JS.slice_last, Store.findMany_asc_take15.
  rewrite length_map, length_firstn, Nat.min_l by exact H.
  change (15 - 10) with 5.
  rewrite skipn_map, skipn_firstn_comm. reflexivity.
Qed.

(** C8. The window is not the most recent part of the conversation: in a
    session that holds sixteen messages m1 .. m16, when the user then says
    "yes, I will take it", the text sent to the classifier is m6 .. m15; it
    holds neither m16 nor the utterance being analysed. *)
Theorem window_holds_oldest_messages :
  let t := snd (step ai_sells_config long_session
                  (calm (verdict "SALE_CONFIRMED" 95) 30)
                  (says "yes, I will take it")) in
  length (messages long_session) = 16
  /\ requests t
     = [{| SaleAnalyzer.analyzer := "detectSaleOutcome";
           SaleAnalyzer.text :=
             JS.join SaleAnalyzer.newline
               ["USER: m6"; "USER: m7"; "USER: m8"; "USER: m9"; "USER: m10";
                "USER: m11"; "USER: m12"; "USER: m13"; "USER: m14";
                "USER: m15"] |}]
  /\ forall q, In q (requests t) ->
       JS.includes (SaleAnalyzer.text q) "m16" = false
       /\ JS.includes (SaleAnalyzer.text q) "yes, I will take it" = false.
Proof.
  vm_compute. split; [reflexivity | split; [reflexivity |]].
  intros q [<- | []]. vm_compute. split; reflexivity.
Qed.

(** ** When the sale detection runs *)

(** C3. The sale detection does not wait for a signal or for CLOSING:
    in DISCOVERY, the utterance "tell me more" carries neither the exit
    nor the buy signal, yet the classifier is asked, and its
    SALE_CONFIRMED verdict with confidence 90 commits sale_made. *)
Theorem detection_runs_without_signal :
  let env := calm (verdict "SALE_CONFIRMED" 90) 4 in
  let w' := fst (step ai_sells_config in_discovery env (says "tell me more")) in
  let t := snd (step ai_sells_config in_discovery env (says "tell me more")) in
  salesMode ai_sells_config = "ai_sells"
  /\ isExitSignal "tell me more" = false
  /\ isBuySignal "tell me more" = false
  /\ currentPhase in_discovery = Store.discovery
  /\ currentPhase w' = Store.discovery
  /\ length (requests t) = 1
  /\ commits t = [Store.sale_made]
  /\ Store.outcome (session w') = Some Store.sale_made.
Proof. vm_compute. repeat split; reflexivity. Qed.

(** What the test does keep out: when the AI sells, a finalized user
    utterance that carries neither the exit nor the buy signal and leaves
    the phase at GREETING (the phase is GREETING and the utterance does
    not contain the trigger phrase) does not reach the classifier and
    commits nothing. *)
Lemma no_detection_in_greeting {cm : JS.CaseMapping} :
  forall (cfg : Config) (w : World) (env : Env) (transcript : string),
    salesMode cfg = "ai_sells" ->
    currentPhase w = Store.greeting ->
    saysTrigger cfg transcript = false ->
    isExitSignal transcript = false ->
    isBuySignal transcript = false ->
    let w' := fst (step cfg w env (says transcript)) in
    let t := snd (step cfg w env (says transcript)) in
    requests t = [] /\ commits t = []
    /\ session w' = session w /\ currentPhase w' = Store.greeting.
Proof.
  intros cfg [s m p i b r] [co uo su rp nw] transcript Hm Hp Ht He Hb.
  cbn [currentPhase] in Hp. subst p.
  unfold_turn. rewrite Hm, Ht. unfold detection_runs. rewrite He, Hb.
  cbn [String.eqb Ascii.eqb Bool.eqb Store.phase_eqb andb orb negb].
  unfold_turn.
  destruct co, su; run_turn.
  all: try match goal with
           | H : _ = true |- _ =>
               cbn [Store.phase_eqb andb orb negb] in H; discriminate H
           end.
  all: read_trace; repeat split; reflexivity.
Qed.

Lemma no_detection_in_greeting_witness :
  let w' := fst (step ai_sells_config initial
                   (calm (verdict "SALE_CONFIRMED" 99) 2) (says "hello there")) in
  let t := snd (step ai_sells_config initial
                  (calm (verdict "SALE_CONFIRMED" 99) 2) (says "hello there")) in
  requests t = [] /\ commits t = []
  /\ session w' = session initial /\ currentPhase w' = Store.greeting.
Proof.
  exact (no_detection_in_greeting ai_sells_config initial
           (calm (verdict "SALE_CONFIRMED" 99) 2) "hello there"
           eq_refl eq_refl eq_refl eq_refl eq_refl).
Defined.

(** Past GREETING the detection runs on every user turn that gets there,
    signal or not. *)
Lemma detection_runs_past_greeting {cm : JS.CaseMapping} (phase : Store.Phase) (transcript : string) :
  phase <> Store.greeting -> detection_runs phase transcript = true.
Proof.
  intros H. unfold detection_runs.
  destruct phase; try congruence; cbn; now rewrite ?orb_true_r.
Qed.

(** ** What reaches the client after a commit *)

Lemma forwarding_counterexample :
  let committed :=
    step ai_sells_config in_discovery
      (calm (verdict "SALE_CONFIRMED" 95) 10) (says "okay, I want to order it") in
  let later :=
    run ai_sells_config (fst committed)
      [(calm SaleAnalyzer.ApiRejected 11, Upstream (Realtime.audio_delta "UklGRg"));
       (calm SaleAnalyzer.ApiRejected 12,
        Upstream (Realtime.audio_transcript_delta "Congratulations!"))] in
  Store.outcome (session (fst committed)) = Some Store.sale_made
  /\ filter is_notification (sent (snd committed))
     = [Client.sale_made "SALE MADE!" "Congratulations! You closed the deal!"]
  /\ sent (snd later)
     = [Client.audio "UklGRg"; Client.assistant_transcript "Congratulations!"]
  /\ forallb is_media (sent (snd later)) = true.
Proof. vm_compute. repeat split; reflexivity. Qed.

(** C5 (amended). A committed outcome does not silence the connection.
    Whatever the session row holds, and so also after a commit, an audio
    delta is forwarded to the client while its socket is open, and so is
    an assistant transcript delta outside a buffering window; neither
    changes the session.  What every run of the upstream message handler
    keeps, from any world and under any environment, is the pairing of
    commits and notifications: it sends as many sale_made/sale_denied
    frames as it writes outcomes, at most one. *)
Theorem forwarding_continues_after_commit {cm : JS.CaseMapping} :
  forall (cfg : Config) (w : World) (env : Env) (delta : string)
         (event : Realtime.Event),
    let t := snd (step cfg w env (Upstream event)) in
    step cfg w env (Upstream (Realtime.audio_delta delta))
    = (w, if clientOpen env then [ClientSend (Client.audio delta)] else [])
    /\ step cfg w env (Upstream (Realtime.audio_transcript_delta delta))
       = (if isWaitingForUserTranscript w
          then (set_buffered (bufferedAssistantTranscript w ++ [delta])%list w, [])
          else (w, if clientOpen env
                   then [ClientSend (Client.assistant_transcript delta)]
                   else []))
    /\ length (filter is_notification (sent t)) = length (commits t)
    /\ length (commits t) <= 1.
Proof.
  intros cfg [s m p b l r] [co uo su rp nw] delta event t. subst t.
  split; [| split].
  - destruct co; reflexivity.
  - destruct b, co; reflexivity.
  - destruct event.
    all: run_handler.
    all: read_trace; cbn [length]; split; auto.
Qed.

Lemma forwarding_continues_after_commit_witness :
  let committed :=
    fst (step ai_sells_config in_discovery
           (calm (verdict "SALE_CONFIRMED" 95) 10)
           (says "okay, I want to order it")) in
  let env := calm SaleAnalyzer.ApiRejected 11 in
  let t := snd (step ai_sells_config in_discovery
                  (calm (verdict "SALE_CONFIRMED" 95) 10)
                  (says "okay, I want to order it")) in
  (Store.outcome (session committed) = Some Store.sale_made
   /\ length (filter is_notification (sent t)) = length (commits t)
   /\ length (commits t) <= 1)
  /\ step ai_sells_config committed env (Upstream (Realtime.audio_delta "UklGRg"))
     = (committed, [ClientSend (Client.audio "UklGRg")])
  /\ step ai_sells_config committed env
       (Upstream (Realtime.audio_transcript_delta "Congratulations!"))
     = (committed, [ClientSend (Client.assistant_transcript "Congratulations!")]).
Proof.
  pose proof (forwarding_continues_after_commit (cm := JS.ascii_case)
                ai_sells_config in_discovery
                (calm (verdict "SALE_CONFIRMED" 95) 10) "UklGRg"
                (Realtime.input_transcription_completed "okay, I want to order it"))
    as (_ & _ & Hpair).
  pose proof (forwarding_continues_after_commit (cm := JS.ascii_case)
                ai_sells_config
                (fst (step ai_sells_config in_discovery
                        (calm (verdict "SALE_CONFIRMED" 95) 10)
                        (says "okay, I want to order it")))
                (calm SaleAnalyzer.ApiRejected 11) "UklGRg" Realtime.other)
    as (Haudio & _).
  pose proof (forwarding_continues_after_commit (cm := JS.ascii_case)
                ai_sells_config
                (fst (step ai_sells_config in_discovery
                        (calm (verdict "SALE_CONFIRMED" 95) 10)
                        (says "okay, I want to order it")))
                (calm SaleAnalyzer.ApiRejected 11) "Congratulations!" Realtime.other)
    as (_ & Htext & _).
  split; [split; [reflexivity | exact Hpair] | split; [exact Haudio | exact Htext]].
Defined.

(** ** Giving up *)

Lemma giving_up_counterexample :
  let t := snd (step ai_sells_config in_discovery
                  (calm (verdict "UNDECIDED" 40) 5) (says "Goodbye")) in
  salesMode ai_sells_config = "ai_sells"
  /\ isGivingUp "Goodbye" = true
  /\ currentPhase in_discovery = Store.discovery
  /\ length (requests t) = 1
  /\ commits t = []
  /\ filter is_notification (sent t) = [].
Proof. vm_compute. repeat split; reflexivity. Qed.

(** C7 (amended). When the user sells (the AI is the customer), a
    finalized user utterance that matches a giving-up phrase, on a
    session that has no outcome yet and whose phase is not COMPLETED,
    commits NO_SALE at once: with the client socket open and the store
    up, the run asks no classifier, writes outcome no_sale with the end
    time and the phase COMPLETED, and sends the client one sale_denied
    frame. *)
Theorem giving_up_commits_no_sale {cm : JS.CaseMapping} :
  forall (cfg : Config) (w : World) (env : Env) (transcript : string),
    salesMode cfg = "user_sells" ->
    clientOpen env = true ->
    storeUp env = true ->
    isGivingUp transcript = true ->
    Store.outcome (session w) = None ->
    Store.currentPhase (session w) <> Store.completed ->
    let w' := fst (step cfg w env (says transcript)) in
    let t := snd (step cfg w env (says transcript)) in
    requests t = []
    /\ commits t = [Store.no_sale]
    /\ filter is_notification (sent t)
       = [Client.sale_denied "SESSION ENDED"
            "You ended the session without making a sale. Keep practicing!"]
    /\ Store.outcome (session w') = Some Store.no_sale
    /\ Store.endedAt (session w') = Some (now env)
    /\ Store.currentPhase (session w') = Store.completed.
Proof.
  intros cfg w [co uo su rp nw] transcript Hm Hc Hs Hg _ _.
  cbn [clientOpen storeUp] in Hc, Hs. subst co su.
  unfold_turn. rewrite Hm, Hg.
  cbn [String.eqb Ascii.eqb Bool.eqb]. unfold_turn.
  repeat (split_test; unfold_turn).
  all: read_trace; repeat split; reflexivity.
Qed.

Lemma giving_up_commits_no_sale_witness :
  let env := calm (verdict "UNDECIDED" 40) 8 in
  let w' := fst (step user_sells_config in_pitching env (says "I give up")) in
  let t := snd (step user_sells_config in_pitching env (says "I give up")) in
  requests t = []
  /\ commits t = [Store.no_sale]
  /\ filter is_notification (sent t)
     = [Client.sale_denied "SESSION ENDED"
          "You ended the session without making a sale. Keep practicing!"]
  /\ Store.outcome (session w') = Some Store.no_sale
  /\ Store.endedAt (session w') = Some (now env)
  /\ Store.currentPhase (session w') = Store.completed.
Proof.
  exact (giving_up_commits_no_sale (cm := JS.ascii_case)
           user_sells_config in_pitching
           (calm (verdict "UNDECIDED" 40) 8) "I give up"
           eq_refl eq_refl eq_refl eq_refl eq_refl
           ltac:(vm_compute; discriminate)).
Defined.

(** * Further properties of the handlers *)

(** ** Runs *)

Lemma run_cons {cm : JS.CaseMapping} (cfg : Config) (w : World) (env : Env) (i : Input)
  (rest : list (Env * Input)) :
  run cfg w ((env, i) :: rest)
  = (fst (run cfg (fst (step cfg w env i)) rest),
     (snd (step cfg w env i) ++ snd (run cfg (fst (step cfg w env i)) rest))%list).
Proof.
  cbn [run]. destruct (step cfg w env i) as [w1 t1].
  cbn [fst snd]. destruct (run cfg w1 rest) as [w2 t2]. reflexivity.
Qed.

Lemma run_app {cm : JS.CaseMapping} (cfg : Config) (w : World) (xs ys : list (Env * Input)) :
  run cfg w (xs ++ ys)
  = (fst (run cfg (fst (run cfg w xs)) ys),
     (snd (run cfg w xs) ++ snd (run cfg (fst (run cfg w xs)) ys))%list).
Proof.
  revert w. induction xs as [|[env i] xs IH]; intros w.
  - cbn [app run fst snd]. now destruct (run cfg w ys).
  - cbn [app]. rewrite !run_cons, IH. cbn [fst snd].
    now rewrite app_assoc.
Qed.

(** A property of the world kept by every handler is kept by every run. *)
Lemma run_invariant {cm : JS.CaseMapping} (P : World -> Prop) (cfg : Config) :
  (forall w env i, P w -> P (fst (step cfg w env i))) ->
  forall inputs w, P w -> P (fst (run cfg w inputs)).
Proof.
  intros Hstep inputs. induction inputs as [|[env i] rest IH]; intros w Hw.
  - exact Hw.
  - rewrite run_cons. cbn [fst]. apply IH, Hstep, Hw.
Qed.

(** Split on the end time the close handler reads. *)
Ltac split_ended :=
  match goal with
  | |- context [match Store.endedAt ?s with _ => _ end] =>
      destruct (Store.endedAt s) eqn:?
  end.

Ltac run_input := run_handler; repeat (split_ended; run_handler).

(** ** The session row *)

Lemma step_ended_iff_outcome {cm : JS.CaseMapping} (cfg : Config) (w : World) (env : Env) (i : Input) :
  ended_iff_outcome (session w) ->
  ended_iff_outcome (session (fst (step cfg w env i))).
Proof.
  destruct env as [co uo su rp nw], w as [s m p b l r].
  unfold ended_iff_outcome. cbn [session]. intros H.
  destruct i as [event | | |]; [destruct event | | |].
  all: run_input.
  all: read_trace; try exact H.
  all: try (split; intros; congruence).
  all: match goal with E : Store.endedAt _ = _ |- _ => rewrite E; exact H end.
Qed.

(** X1. Along every run of handlers from a fresh connection, whatever
    the sockets, the store and the classifier do, the session row has an
    end time exactly when it has an outcome. *)
Theorem ended_iff_outcome_along_runs {cm : JS.CaseMapping} :
  forall (cfg : Config) (inputs : list (Env * Input)),
    ended_iff_outcome (session (fst (run cfg initial inputs))).
Proof.
  intros cfg inputs.
  apply (run_invariant (fun w => ended_iff_outcome (session w))).
  - intros w env i. apply step_ended_iff_outcome.
  - split; reflexivity.
Qed.

(** ** The message rows *)

Lemma created_app (t1 t2 : list Effect) :
  created (t1 ++ t2) = (created t1 ++ created t2)%list.
Proof.
  induction t1 as [|e t1 IH]; [reflexivity|].
  destruct e; cbn; auto. now rewrite IH.
Qed.

Lemma upstream_sent_app (t1 t2 : list Effect) :
  upstream_sent (t1 ++ t2) = (upstream_sent t1 ++ upstream_sent t2)%list.
Proof.
  induction t1 as [|e t1 IH]; [reflexivity|].
  destruct e; cbn; auto. now rewrite IH.
Qed.

Lemma step_appends {cm : JS.CaseMapping} (cfg : Config) (w : World) (env : Env) (i : Input) :
  messages (fst (step cfg w env i))
  = (messages w ++ created (snd (step cfg w env i)))%list
  /\ length (created (snd (step cfg w env i))) <= 1.
Proof.
  destruct env as [co uo su rp nw], w as [s m p b l r].
  cbn [messages].
  destruct i as [event | | |]; [destruct event | | |].
  all: run_input.
  all: cbn [created app length]; rewrite ?app_nil_r; split; auto.
Qed.

(** X2. The message rows only grow: after any run the rows are the rows
    before it followed by the rows the run created, at most one per
    handler and in the order they were created. *)
Theorem messages_append_only {cm : JS.CaseMapping} :
  forall (cfg : Config) (w : World) (inputs : list (Env * Input)),
    messages (fst (run cfg w inputs))
    = (messages w ++ created (snd (run cfg w inputs)))%list
    /\ length (created (snd (run cfg w inputs))) <= length inputs.
Proof.
  intros cfg w inputs. revert w.
  induction inputs as [|[env i] rest IH]; intros w.
  - cbn. rewrite app_nil_r. split; auto.
  - rewrite run_cons. cbn [fst snd length].
    destruct (IH (fst (step cfg w env i))) as [IHm IHn].
    destruct (step_appends cfg w env i) as [Hm Hn].
    rewrite IHm, Hm, created_app, length_app, app_assoc.
    split; [reflexivity | lia].
Qed.

(** X3. A finalized transcript is logged with the phase the handler
    held before the turn: the user's utterance before any advance it
    causes (the trigger utterance itself is logged in GREETING), the
    assistant's as it stands. *)
Theorem transcript_logged_with_phase_before_turn {cm : JS.CaseMapping} :
  forall (cfg : Config) (w : World) (env : Env) (transcript : string),
    storeUp env = true ->
    clientOpen env = true ->
    transcript <> EmptyString ->
    created (snd (step cfg w env (says transcript)))
    = [Store.mkMessage "user" transcript (currentPhase w)]
    /\ created (snd (step cfg w env (replies transcript)))
       = [Store.mkMessage "assistant" transcript (currentPhase w)].
Proof.
  intros cfg [s m p b l r] [co uo su rp nw] transcript Hs Hc Hne.
  cbn [storeUp clientOpen] in *. subst su co.
  apply String.eqb_neq in Hne. split.
  - run_handler.
    all: cbn [created app]; reflexivity.
  - unfold_handlers. rewrite Hne. cbn [negb]. run_handler.
    all: cbn [created app]; reflexivity.
Qed.

Lemma transcript_logged_with_phase_before_turn_witness :
  created (snd (step ai_sells_config initial
                  (calm SaleAnalyzer.ApiRejected 1) (says "Sell me a pen")))
  = [Store.mkMessage "user" "Sell me a pen" Store.greeting]
  /\ created (snd (step ai_sells_config initial
                     (calm SaleAnalyzer.ApiRejected 1) (replies "Sell me a pen")))
     = [Store.mkMessage "assistant" "Sell me a pen" Store.greeting].
Proof.
  exact (transcript_logged_with_phase_before_turn ai_sells_config initial
           (calm SaleAnalyzer.ApiRejected 1) "Sell me a pen"
           eq_refl eq_refl ltac:(discriminate)).
Defined.

(** ** The greeting *)

Lemma step_greets_once {cm : JS.CaseMapping} (cfg : Config) (w : World) (env : Env) (i : Input) :
  length (upstream_sent (snd (step cfg w env i)))
  <= (if sessionReady w then 0 else 1)
  /\ (sessionReady w = true \/ upstream_sent (snd (step cfg w env i)) <> [] ->
      sessionReady (fst (step cfg w env i)) = true).
Proof.
  destruct env as [co uo su rp nw], w as [s m p b l r].
  cbn [sessionReady].
  destruct i as [event | | |]; [destruct event | | |].
  all: run_input.
  all: cbn [upstream_sent app length].
  all: repeat match goal with
              | H : _ && _ = true |- _ => apply andb_prop in H; destruct H
              | H : negb _ = true |- _ => apply negb_true_iff in H
              end; subst.
  all: try discriminate.
  all: split; [auto | intros [? | ?]; congruence].
Qed.

(** X4. However many session.created and session.updated events arrive,
    and whatever else happens, a connection asks the engine for the
    greeting at most once, and never again once [sessionReady] is set. *)
Theorem greeting_sent_at_most_once {cm : JS.CaseMapping} :
  forall (cfg : Config) (w : World) (inputs : list (Env * Input)),
    length (upstream_sent (snd (run cfg w inputs)))
    <= (if sessionReady w then 0 else 1).
Proof.
  intros cfg w inputs. revert w.
  induction inputs as [|[env i] rest IH]; intros w.
  - cbn. destruct (sessionReady w); lia.
  - rewrite run_cons. cbn [snd]. rewrite upstream_sent_app, length_app.
    destruct (step_greets_once cfg w env i) as [Hn Hr].
    specialize (IH (fst (step cfg w env i))).
    destruct (sessionReady w) eqn:Ew.
    + rewrite Hr in IH by auto. lia.
    + destruct (upstream_sent (snd (step cfg w env i))) as [|c cs] eqn:Eu.
      * cbn [length]. destruct (sessionReady (fst (step cfg w env i))); lia.
      * rewrite Hr in IH by (right; discriminate). lia.
Qed.

(** ** The local phase *)

Lemma step_phase_of_mode {cm : JS.CaseMapping} (cfg : Config) (w : World) (env : Env) (i : Input) :
  phase_of_mode (salesMode cfg) (currentPhase w) = true ->
  phase_of_mode (salesMode cfg) (currentPhase (fst (step cfg w env i))) = true.
Proof.
  destruct env as [co uo su rp nw], w as [s m p b l r].
  cbn [currentPhase]. unfold phase_of_mode. intros H.
  destruct i as [event | | |]; [destruct event | | |].
  all: run_input.
  all: try exact H.
  all: repeat match goal with
              | E : String.eqb _ _ = _ |- _ => rewrite E in *
              end.
  all: try reflexivity; try discriminate.
  all: destruct p; cbn in *; congruence.
Qed.

(** X5. The handler's own [currentPhase] stays within its mode: GREETING,
    DISCOVERY, POSITIONING or CLOSING when the AI sells, GREETING or
    PITCHING otherwise.  It is never COMPLETED, not even after a commit:
    only the stored row is. *)
Theorem local_phase_stays_in_mode {cm : JS.CaseMapping} :
  forall (cfg : Config) (inputs : list (Env * Input)),
    let p := currentPhase (fst (run cfg initial inputs)) in
    phase_of_mode (salesMode cfg) p = true /\ p <> Store.completed.
Proof.
  intros cfg inputs p.
  assert (H : phase_of_mode (salesMode cfg) p = true).
  { subst p.
    apply (run_invariant
             (fun w => phase_of_mode (salesMode cfg) (currentPhase w) = true)).
    - intros w env i. apply step_phase_of_mode.
    - unfold phase_of_mode. now destruct (String.eqb _ _). }
  split; [exact H |].
  intros E. rewrite E in H. unfold phase_of_mode in H.
  destruct (String.eqb _ _); discriminate.
Qed.

(** ** When the classifier is asked *)

(** X11. A handler asks the classifier at most once, and only with the
    store up: through [detectSaleOutcome] on a user transcript when the
    AI sells (client socket open), through [detectUserSaleOutcome] on an
    assistant transcript past GREETING when the user sells, and on no
    other input. *)
Theorem classifier_asked_by_mode {cm : JS.CaseMapping} :
  forall (cfg : Config) (w : World) (env : Env) (i : Input)
         (q : SaleAnalyzer.Request),
    let t := snd (step cfg w env i) in
    In q (requests t) ->
    requests t = [q]
    /\ storeUp env = true
    /\ ((SaleAnalyzer.analyzer q = "detectSaleOutcome"
         /\ salesMode cfg = "ai_sells"
         /\ clientOpen env = true
         /\ exists transcript, i = says transcript)
        \/ (SaleAnalyzer.analyzer q = "detectUserSaleOutcome"
            /\ salesMode cfg = "user_sells"
            /\ currentPhase w <> Store.greeting
            /\ exists transcript, i = replies transcript)).
Proof.
  intros cfg [s m p b l r] [co uo su rp nw] i q t. subst t.
  cbn [storeUp clientOpen currentPhase].
  destruct i as [event | | |]; [destruct event | | |].
  all: run_input.
  all: read_trace; cbn [In].
  all: try (intros Hin; exact (False_ind _ Hin)).
  all: intros [<- | Hin]; [| exact (False_ind _ Hin)].
  all: repeat match goal with
              | H : _ && _ = true |- _ => apply andb_prop in H; destruct H
              | H : negb _ = true |- _ => apply negb_true_iff in H
              | H : String.eqb _ _ = true |- _ => apply String.eqb_eq in H
              end.
  all: split; [reflexivity | split; [reflexivity |]].
  all: try (left; repeat split; auto; eexists; reflexivity).
  all: right; repeat split; auto; try (eexists; reflexivity).
  all: intros ->; discriminate.
Qed.

Lemma classifier_asked_by_mode_witness :
  let q := {| SaleAnalyzer.analyzer := "detectUserSaleOutcome";
              SaleAnalyzer.text := "ASSISTANT: Okay, I'll take it" |} in
  let w := set_currentPhase Store.pitching initial in
  let env := calm (verdict "SALE_CONFIRMED" 90) 5 in
  let i := replies "Okay, I'll take it" in
  let t := snd (step user_sells_config w env i) in
  requests t = [q]
  /\ storeUp env = true
  /\ ((SaleAnalyzer.analyzer q = "detectSaleOutcome"
       /\ salesMode user_sells_config = "ai_sells"
       /\ clientOpen env = true
       /\ exists transcript, i = says transcript)
      \/ (SaleAnalyzer.analyzer q = "detectUserSaleOutcome"
          /\ salesMode user_sells_config = "user_sells"
          /\ currentPhase w <> Store.greeting
          /\ exists transcript, i = replies transcript)).
Proof.
  exact (classifier_asked_by_mode user_sells_config
           (set_currentPhase Store.pitching initial)
           (calm (verdict "SALE_CONFIRMED" 90) 5)
           (replies "Okay, I'll take it")
           {| SaleAnalyzer.analyzer := "detectUserSaleOutcome";
              SaleAnalyzer.text := "ASSISTANT: Okay, I'll take it" |}
           ltac:(vm_compute; left; reflexivity)).
Defined.

(** ** The stored phase and the local one *)

Lemma step_phases_agree {cm : JS.CaseMapping} (cfg : Config) (w : World) (env : Env) (i : Input) :
  storeUp env = true ->
  phases_agree w -> phases_agree (fst (step cfg w env i)).
Proof.
  destruct env as [co uo su rp nw], w as [s m p b l r].
  unfold phases_agree. cbn [storeUp session currentPhase]. intros -> H.
  destruct i as [event | | |]; [destruct event | | |].
  all: run_input.
  all: read_trace; try exact H; auto.
Qed.

(** X6. While the store answers, the stored phase is the handler's own
    phase or COMPLETED. *)
Theorem stored_phase_tracks_local {cm : JS.CaseMapping} :
  forall (cfg : Config) (inputs : list (Env * Input)),
    Forall (fun x => storeUp (fst x) = true) inputs ->
    phases_agree (fst (run cfg initial inputs)).
Proof.
  intros cfg inputs H.
  assert (G : forall w, phases_agree w -> phases_agree (fst (run cfg w inputs))).
  { induction H as [|[env i] rest Hup _ IH]; intros w Hw; [exact Hw|].
    rewrite run_cons. cbn [fst]. apply IH, step_phases_agree; assumption. }
  apply G. left. reflexivity.
Qed.

Lemma stored_phase_tracks_local_witness :
  phases_agree (fst (run ai_sells_config initial six_turns)).
Proof.
  exact (stored_phase_tracks_local ai_sells_config six_turns
           ltac:(repeat constructor)).
Defined.

(** ** Lexical detection *)

Lemma lower_upper_char (c : ascii) :
  JS.lower_char (JS.upper_char c) = JS.lower_char c.
Proof. destruct c as [[] [] [] [] [] [] [] []]; reflexivity. Qed.

Lemma ascii_lower_upper (s : string) :
  JS.ascii_toLowerCase (JS.ascii_toUpperCase s) = JS.ascii_toLowerCase s.
Proof.
  induction s as [|c s IH]; [reflexivity|].
  cbn [JS.ascii_toLowerCase JS.ascii_toUpperCase JS.map_string] in *.
  now rewrite lower_upper_char, IH.
Qed.

Lemma upper_char_ascii (c : ascii) :
  JS.is_ascii_char c = true -> JS.is_ascii_char (JS.upper_char c) = true.
Proof. destruct c as [[] [] [] [] [] [] [] []]; vm_compute; exact (fun H => H). Qed.

Lemma ascii_upper_is_ascii (s : string) :
  JS.is_ascii s = true -> JS.is_ascii (JS.ascii_toUpperCase s) = true.
Proof.
  induction s as [|c s IH]; [reflexivity|].
  cbn [JS.is_ascii JS.ascii_toUpperCase JS.map_string].
  intros H. apply andb_prop in H. destruct H as [Hc Hs].
  now rewrite upper_char_ascii, IH.
Qed.

(** X15. On utterances made of ASCII characters the lexical tests do
    not depend on the case of the letters, for every case mapping that
    folds ASCII strings as the runtime does: the upper-case form of such
    an utterance is again ASCII, and the trigger phrase test, the exit
    and buy signals and the give-up test give the same answer on it as
    on the utterance. *)
Theorem detection_ignores_case {cm : JS.CaseMapping} :
  JS.folds_ascii cm ->
  forall (cfg : Config) (transcript : string),
    JS.is_ascii transcript = true ->
    JS.is_ascii (JS.toUpperCase transcript) = true
    /\ saysTrigger cfg (JS.toUpperCase transcript) = saysTrigger cfg transcript
    /\ isExitSignal (JS.toUpperCase transcript) = isExitSignal transcript
    /\ isBuySignal (JS.toUpperCase transcript) = isBuySignal transcript
    /\ isGivingUp (JS.toUpperCase transcript) = isGivingUp transcript.
Proof.
  intros Hcm cfg transcript Ht.
  pose proof (ascii_upper_is_ascii transcript Ht) as Hu.
  destruct (Hcm transcript Ht) as [Hl Hup].
  destruct (Hcm (JS.ascii_toUpperCase transcript) Hu) as [Hlu _].
  unfold saysTrigger, isExitSignal, isBuySignal, isGivingUp.
  rewrite Hup, Hlu, ascii_lower_upper, <- Hl.
  repeat split; trivial.
Qed.

Lemma detection_ignores_case_witness :
  JS.is_ascii "Sell me a pen, please" = true
  /\ JS.is_ascii (JS.toUpperCase "Sell me a pen, please") = true
  /\ saysTrigger ai_sells_config (JS.toUpperCase "Sell me a pen, please")
     = saysTrigger ai_sells_config "Sell me a pen, please"
  /\ isExitSignal (JS.toUpperCase "Sell me a pen, please")
     = isExitSignal "Sell me a pen, please"
  /\ isBuySignal (JS.toUpperCase "Sell me a pen, please")
     = isBuySignal "Sell me a pen, please"
  /\ isGivingUp (JS.toUpperCase "Sell me a pen, please")
     = isGivingUp "Sell me a pen, please".
Proof.
  split; [reflexivity|].
  exact (detection_ignores_case (cm := JS.ascii_case)
           (fun s _ => conj eq_refl eq_refl)
           ai_sells_config "Sell me a pen, please" eq_refl).
Defined.

Lemma prefix_spec (p s : string) :
  String.prefix p s = true <-> exists post, s = p ++ post.
Proof.
  revert s. induction p as [|c p IH]; intros s.
  - split; [intros _; now exists s | intros _; now destruct s].
  - destruct s as [|d s]; cbn.
    + split; [discriminate | intros [post H]; discriminate].
    + destruct (Ascii.ascii_dec c d) as [->|Hne].
      * rewrite IH. split; intros [post H]; exists post.
        -- now rewrite H.
        -- now injection H.
      * split; [discriminate | intros [post H]; congruence].
Qed.

Lemma includes_spec (s sub : string) :
  JS.includes s sub = true <-> exists pre post, s = pre ++ sub ++ post.
Proof.
  induction s as [|c s IH]; cbn [JS.includes].
  - rewrite prefix_spec. split.
    + intros [post H]. now exists EmptyString, post.
    + intros [pre [post H]]. destruct pre; [now exists post | discriminate].
  - rewrite orb_true_iff, prefix_spec, IH. split.
    + intros [[post H] | [pre [post H]]].
      * now exists EmptyString, post.
      * exists (String c pre), post. cbn. now rewrite H.
    + intros [pre [post H]]. destruct pre as [|d pre].
      * left. now exists post.
      * right. exists pre, post. cbn in H. now injection H.
Qed.

(** X16. A signal is a plain substring match: it is raised exactly when
    the lower-cased utterance contains one of the listed phrases
    somewhere, whatever stands before and after it. *)
Theorem signal_is_substring_match {cm : JS.CaseMapping} :
  forall (transcript : string),
    (isExitSignal transcript = true <->
     exists phrase pre post,
       In phrase exitPhrases
       /\ JS.toLowerCase transcript = pre ++ phrase ++ post)
    /\ (isBuySignal transcript = true <->
        exists phrase pre post,
          In phrase buyPhrases
          /\ JS.toLowerCase transcript = pre ++ phrase ++ post)
    /\ (isGivingUp transcript = true <->
        exists phrase pre post,
          In phrase giveUpPhrases
          /\ JS.toLowerCase transcript = pre ++ phrase ++ post).
Proof.
  intros transcript.
  assert (H : forall phrases,
             some_included phrases (JS.toLowerCase transcript) = true <->
             exists phrase pre post,
               In phrase phrases
               /\ JS.toLowerCase transcript = pre ++ phrase ++ post).
  { intros phrases. unfold some_included. rewrite existsb_exists. split.
    - intros [phrase [Hin Hinc]]. apply includes_spec in Hinc.
      destruct Hinc as [pre [post E]]. now exists phrase, pre, post.
    - intros [phrase [pre [post [Hin E]]]]. exists phrase. split; [exact Hin|].
      apply includes_spec. now exists pre, post. }
  unfold isExitSignal, isBuySignal, isGivingUp. repeat split; apply H.
Qed.

(** ** The transcript window, while the conversation is short *)




(** ** The client goes away *)

(** X18. When the client goes away from a session that has not ended
    (store up), the session is marked abandoned with the end time, its
    stored phase untouched; a second close changes nothing. *)
Theorem client_close_abandons_once {cm : JS.CaseMapping} :
  forall (cfg : Config) (w : World) (env again : Env),
    storeUp env = true ->
    Store.endedAt (session w) = None ->
    let w' := fst (step cfg w env ClientClosed) in
    Store.outcome (session w') = Some Store.abandoned
    /\ Store.endedAt (session w') = Some (now env)
    /\ Store.currentPhase (session w') = Store.currentPhase (session w)
    /\ step cfg w' again ClientClosed = (w', [UpstreamClose]).
Proof.
  intros cfg [s m p b l r] [co uo su rp nw] again Hs He w'.
  cbn [storeUp session] in Hs, He. subst su w'.
  assert (E : step cfg (mkWorld s m p b l r) (mkEnv co uo true rp nw) ClientClosed
              = (mkWorld (Store.update (Store.abandoned_patch nw) s) m p b l r,
                 [UpstreamClose; SessionUpdate (Store.abandoned_patch nw)])).
  { unfold_turn. rewrite He. reflexivity. }
  rewrite E. cbn [fst session now].
  split; [reflexivity | split; [reflexivity | split; [reflexivity |]]].
  apply client_close_keeps_ended_session. cbn. discriminate.
Qed.

Lemma client_close_abandons_once_witness :
  let w' := fst (step ai_sells_config in_discovery
                   (calm SaleAnalyzer.ApiRejected 7) ClientClosed) in
  Store.outcome (session w') = Some Store.abandoned
  /\ Store.endedAt (session w') = Some (now (calm SaleAnalyzer.ApiRejected 7))
  /\ Store.currentPhase (session w') = Store.currentPhase (session in_discovery)
  /\ step ai_sells_config w' (calm SaleAnalyzer.ApiRejected 8) ClientClosed
     = (w', [UpstreamClose]).
Proof.
  exact (client_close_abandons_once ai_sells_config in_discovery
           (calm SaleAnalyzer.ApiRejected 7) (calm SaleAnalyzer.ApiRejected 8)
           eq_refl eq_refl).
Defined.

(** ** A user turn cut short by the store *)

(** X9. When the AI sells and the store does not answer during a user
    turn, the turn ends after the user transcript frame: the buffered
    assistant fragments are neither sent nor dropped, and the buffering
    window stays as it was. *)
Theorem store_down_keeps_window_open {cm : JS.CaseMapping} :
  forall (cfg : Config) (w : World) (env : Env) (transcript : string),
    salesMode cfg = "ai_sells" ->
    clientOpen env = true ->
    storeUp env = false ->
    let w' := fst (step cfg w env (says transcript)) in
    let t := snd (step cfg w env (says transcript)) in
    sent t = [Client.user_transcript transcript]
    /\ isWaitingForUserTranscript w' = isWaitingForUserTranscript w
    /\ bufferedAssistantTranscript w' = bufferedAssistantTranscript w.
Proof.
  intros cfg [s m p b l r] [co uo su rp nw] transcript Hm Hc Hs w' t.
  cbn [clientOpen storeUp] in Hc, Hs. subst co su w' t.
  unfold_handlers. rewrite Hm. cbn [String.eqb Ascii.eqb Bool.eqb].
  run_handler.
  all: cbn [sent app]; repeat split; reflexivity.
Qed.

Lemma store_down_keeps_window_open_witness :
  let env := {| clientOpen := true; upstreamOpen := true; storeUp := false;
                reply := SaleAnalyzer.ApiRejected; now := 4 |} in
  let w := set_buffered ["A"; "B"] (set_isWaiting true in_discovery) in
  let w' := fst (step ai_sells_config w env (says "hello")) in
  let t := snd (step ai_sells_config w env (says "hello")) in
  sent t = [Client.user_transcript "hello"]
  /\ isWaitingForUserTranscript w' = isWaitingForUserTranscript w
  /\ bufferedAssistantTranscript w' = bufferedAssistantTranscript w.
Proof.
  exact (store_down_keeps_window_open ai_sells_config
           (set_buffered ["A"; "B"] (set_isWaiting true in_discovery))
           {| clientOpen := true; upstreamOpen := true; storeUp := false;
              reply := SaleAnalyzer.ApiRejected; now := 4 |}
           "hello" eq_refl eq_refl eq_refl).
Defined.

(** ** The phase along a run *)

Lemma step_phase_monotone {cm : JS.CaseMapping} (cfg : Config) (w : World) (env : Env) (i : Input) :
  triggers cfg i = false ->
  Store.rank (currentPhase w)
  <= Store.rank (currentPhase (fst (step cfg w env i))).
Proof.
  destruct i as [event | | |]; [destruct event | | |]; cbn [triggers].
  7: { intros H. exact (phase_monotone_without_trigger cfg w env transcript H). }
  all: intros _; destruct env as [co uo su rp nw], w as [s m p b l r].
  all: run_input; cbn [Store.rank]; lia.
Qed.

(** X7. Along a run in which no user utterance contains the trigger
    phrase, the handler's phase never goes back, in either mode and
    whatever else happens. *)
Theorem phase_never_goes_back_without_trigger {cm : JS.CaseMapping} :
  forall (cfg : Config) (inputs : list (Env * Input)) (w : World),
    Forall (fun x => triggers cfg (snd x) = false) inputs ->
    Store.rank (currentPhase w)
    <= Store.rank (currentPhase (fst (run cfg w inputs))).
Proof.
  intros cfg inputs. induction inputs as [|[env i] rest IH]; intros w H.
  - cbn. lia.
  - inversion H as [|x xs Hi Hrest]; subst. cbn [snd] in Hi.
    rewrite run_cons. cbn [fst].
    pose proof (step_phase_monotone cfg w env i Hi).
    specialize (IH (fst (step cfg w env i)) Hrest). lia.
Qed.

Lemma phase_never_goes_back_without_trigger_witness :
  Store.rank (currentPhase in_discovery)
  <= Store.rank (currentPhase
       (fst (run ai_sells_config in_discovery
               [(calm SaleAnalyzer.ApiRejected 2, says "I write a lot");
                (calm SaleAnalyzer.ApiRejected 3, replies "Interesting.");
                (calm SaleAnalyzer.ApiRejected 4, says "mostly letters")]))).
Proof.
  exact (phase_never_goes_back_without_trigger ai_sells_config
           [(calm SaleAnalyzer.ApiRejected 2, says "I write a lot");
            (calm SaleAnalyzer.ApiRejected 3, replies "Interesting.");
            (calm SaleAnalyzer.ApiRejected 4, says "mostly letters")]
           in_discovery
           ltac:(repeat constructor)).
Defined.

(** ** When the store is down *)

(** X8. When the store does not answer, a handler leaves the session row
    and the message rows as they were, writes no outcome and sends the
    client no outcome notification: the client is never told of a commit
    that did not happen. *)
Theorem store_down_writes_nothing {cm : JS.CaseMapping} :
  forall (cfg : Config) (w : World) (env : Env) (i : Input),
    storeUp env = false ->
    let w' := fst (step cfg w env i) in
    let t := snd (step cfg w env i) in
    session w' = session w
    /\ messages w' = messages w
    /\ commits t = []
    /\ created t = []
    /\ filter is_notification (sent t) = [].
Proof.
  intros cfg [s m p b l r] [co uo su rp nw] i Hs.
  cbn [storeUp] in Hs. subst su.
  intros w' t; subst w' t. cbn [session messages].
  destruct i as [event | | |]; [destruct event | | |].
  all: run_input.
  all: read_trace; cbn [created app]; repeat split; reflexivity.
Qed.

Lemma store_down_writes_nothing_witness :
  let env := {| clientOpen := true; upstreamOpen := true; storeUp := false;
                reply := verdict "SALE_CONFIRMED" 99; now := 4 |} in
  let w' := fst (step user_sells_config in_discovery env (says "I give up")) in
  let t := snd (step user_sells_config in_discovery env (says "I give up")) in
  session w' = session in_discovery
  /\ messages w' = messages in_discovery
  /\ commits t = []
  /\ created t = []
  /\ filter is_notification (sent t) = [].
Proof.
  exact (store_down_writes_nothing user_sells_config in_discovery
           {| clientOpen := true; upstreamOpen := true; storeUp := false;
              reply := verdict "SALE_CONFIRMED" 99; now := 4 |}
           (says "I give up") eq_refl).
Defined.

(** ** Verdicts that are not final *)

Lemma act_on_other (env : Env) (threshold : Z) (a : SaleAnalyzer.AnalysisResult)
  (mh mm dh dm : string) :
  SaleAnalyzer.outcome a <> "SALE_CONFIRMED" ->
  SaleAnalyzer.outcome a <> "SALE_DENIED" ->
  act_on_analysis env threshold a mh mm dh dm = ret tt.
Proof.
  intros Hc Hd. unfold act_on_analysis.
  apply String.eqb_neq in Hc, Hd. rewrite Hc, Hd.
  now destruct (_ <=? _)%Z.
Qed.

(** X10. A verdict whose outcome is neither SALE_CONFIRMED nor
    SALE_DENIED commits nothing and notifies nothing, whatever its
    confidence. *)
Theorem undecided_never_commits {cm : JS.CaseMapping} :
  forall (cfg : Config) (w : World) (env : Env) (event : Realtime.Event),
    let a := SaleAnalyzer.settle (reply env) in
    let w' := fst (step cfg w env (Upstream event)) in
    let t := snd (step cfg w env (Upstream event)) in
    SaleAnalyzer.outcome a <> "SALE_CONFIRMED" ->
    SaleAnalyzer.outcome a <> "SALE_DENIED" ->
    requests t <> [] ->
    commits t = []
    /\ filter is_notification (sent t) = []
    /\ Store.outcome (session w') = Store.outcome (session w)
    /\ Store.endedAt (session w') = Store.endedAt (session w).
Proof.
  intros cfg [s m p b l r] [co uo su rp nw] event a w' t Hc Hd.
  subst a w' t. cbn [reply session] in *.
  destruct event.
  all: run_turn.
  all: try (intros Hreq; exfalso; apply Hreq; read_trace; reflexivity).
  all: intros _; rewrite (act_on_other _ _ _ _ _ _ _ Hc Hd).
  all: run_turn.
  all: read_trace; repeat split; reflexivity.
Qed.

Lemma undecided_never_commits_witness :
  let env := calm (verdict "UNDECIDED" 100) 6 in
  let w' := fst (step ai_sells_config in_discovery env (says "Goodbye")) in
  let t := snd (step ai_sells_config in_discovery env (says "Goodbye")) in
  commits t = []
  /\ filter is_notification (sent t) = []
  /\ Store.outcome (session w') = Store.outcome (session in_discovery)
  /\ Store.endedAt (session w') = Store.endedAt (session in_discovery).
Proof.
  exact (undecided_never_commits ai_sells_config in_discovery
           (calm (verdict "UNDECIDED" 100) 6)
           (Realtime.input_transcription_completed "Goodbye")
           ltac:(vm_compute; discriminate) ltac:(vm_compute; discriminate)
           ltac:(vm_compute; discriminate)).
Defined.

(** ** The transcript buffer, for any number of fragments *)

(** While the window is open every fragment goes to the end of the
    buffer and nothing is sent, whatever the state of the sockets. *)
Lemma fragments_buffered {cm : JS.CaseMapping} (cfg : Config) (ds : list (Env * string)) :
  forall w,
    isWaitingForUserTranscript w = true ->
    run cfg w (fragments ds)
    = (set_buffered (bufferedAssistantTranscript w ++ map snd ds)%list w, []).
Proof.
  induction ds as [|[env d] ds IH]; intros [s m p b l r] Hw;
    cbn [isWaitingForUserTranscript] in Hw; subst b.
  - cbn. now rewrite app_nil_r.
  - unfold fragments. cbn [map fst snd]. rewrite run_cons.
    fold (fragments ds).
    assert (E : step cfg (mkWorld s m p true l r) env
                  (Upstream (Realtime.audio_transcript_delta d))
                = (mkWorld s m p true (l ++ [d])%list r, [])) by reflexivity.
    rewrite E. cbn [fst snd]. rewrite IH by reflexivity.
    cbn [bufferedAssistantTranscript set_buffered session messages currentPhase
         isWaitingForUserTranscript sessionReady fst snd app].
    now rewrite <- app_assoc.
Qed.

(** A finalized user transcript flushes whatever the buffer holds, in one
    frame, and leaves it empty. *)
Lemma finalization_flushes {cm : JS.CaseMapping} (cfg : Config) (w : World) (env : Env)
  (transcript : string) :
  clientOpen env = true ->
  storeUp env = true ->
  let finalized := step cfg w env (says transcript) in
  filter is_assistant_transcript (sent (snd finalized))
  = match bufferedAssistantTranscript w with
    | [] => []
    | buffered =>
        [Client.assistant_transcript (String.concat EmptyString buffered)]
    end
  /\ bufferedAssistantTranscript (fst finalized) = []
  /\ isWaitingForUserTranscript (fst finalized) = false.
Proof.
  destruct env as [co uo su rp nw], w as [s m p b l r].
  intros Hc Hs finalized; subst finalized.
  cbn [clientOpen storeUp bufferedAssistantTranscript] in *. subst co su.
  unfold_outer.
  match goal with
  | |- context [(if _ then ai_sells_turn _ ?e _ else _) ?w1] =>
      destruct (turn_keeps_buffer cfg e transcript w1 eq_refl)
        as ([s2 m2 p2 b2 l2 r2] & t2 & E & Hbuf & Hsent);
      rewrite E
  end.
  cbn [bufferedAssistantTranscript] in Hbuf. subst l2.
  unfold flush_buffered. unfold_outer.
  destruct l as [|d l]; cbn [length Nat.ltb Nat.leb]; unfold_outer.
  - cbn [sent filter is_assistant_transcript app].
    rewrite !app_nil_r, Hsent. repeat split; reflexivity.
  - cbn [sent filter is_assistant_transcript app].
    rewrite app_nil_r, sent_app, filter_app, Hsent.
    repeat split; reflexivity.
Qed.

(** A speech start opens the window on an empty buffer; the fragments
    that follow fill it. *)
Lemma speech_start_buffers {cm : JS.CaseMapping} (cfg : Config) (w : World) (e0 : Env)
  (ds : list (Env * string)) :
  run cfg w ((e0, Upstream Realtime.speech_started) :: fragments ds)
  = (set_buffered (map snd ds) (set_isWaiting true w), []).
Proof.
  rewrite run_cons.
  change (step cfg w e0 (Upstream Realtime.speech_started))
    with (set_buffered [] (set_isWaiting true w), @nil Effect).
  cbn [fst snd]. rewrite fragments_buffered by reflexivity.
  destruct w; reflexivity.
Qed.

(** X12. For any number of assistant fragments arriving after a speech
    start: nothing is sent while they arrive, the buffer holds them in
    order, and the finalized user transcript releases them as one frame,
    their concatenation (no frame when there were none), leaving the
    buffer empty. *)
Theorem any_fragments_flush_in_order {cm : JS.CaseMapping} :
  forall (cfg : Config) (w : World) (e0 env : Env) (ds : list (Env * string))
         (transcript : string),
    clientOpen env = true ->
    storeUp env = true ->
    let buffering :=
      run cfg w ((e0, Upstream Realtime.speech_started) :: fragments ds) in
    let finalized := step cfg (fst buffering) env (says transcript) in
    sent (snd buffering) = []
    /\ bufferedAssistantTranscript (fst buffering) = map snd ds
    /\ filter is_assistant_transcript (sent (snd finalized))
       = match ds with
         | [] => []
         | _ => [Client.assistant_transcript
                   (String.concat EmptyString (map snd ds))]
         end
    /\ bufferedAssistantTranscript (fst finalized) = [].
Proof.
  intros cfg w e0 env ds transcript Hc Hs buffering finalized.
  subst finalized buffering. rewrite speech_start_buffers. cbn [fst snd sent].
  destruct (finalization_flushes cfg
              (set_buffered (map snd ds) (set_isWaiting true w))
              env transcript Hc Hs) as (Hf & He & _).
  split; [reflexivity | split; [| split; [| exact He]]].
  - destruct w; reflexivity.
  - rewrite Hf. destruct w, ds; reflexivity.
Qed.

Lemma any_fragments_flush_in_order_witness :
  let quiet := calm SaleAnalyzer.ApiRejected 3 in
  let ds := [(quiet, "Well, "); (quiet, "let me "); (quiet, "ask "); (quiet, "you.")] in
  let buffering :=
    run user_sells_config initial
      ((quiet, Upstream Realtime.speech_started) :: fragments ds) in
  let finalized := step user_sells_config (fst buffering) quiet (says "hello") in
  sent (snd buffering) = []
  /\ bufferedAssistantTranscript (fst buffering) = map snd ds
  /\ filter is_assistant_transcript (sent (snd finalized))
     = [Client.assistant_transcript "Well, let me ask you."]
  /\ bufferedAssistantTranscript (fst finalized) = [].
Proof.
  exact (any_fragments_flush_in_order user_sells_config initial
           (calm SaleAnalyzer.ApiRejected 3) (calm SaleAnalyzer.ApiRejected 3)
           [(calm SaleAnalyzer.ApiRejected 3, "Well, ");
            (calm SaleAnalyzer.ApiRejected 3, "let me ");
            (calm SaleAnalyzer.ApiRejected 3, "ask ");
            (calm SaleAnalyzer.ApiRejected 3, "you.")]
           "hello" eq_refl eq_refl).
Defined.

(** X13. A second speech start while the window is open drops the
    fragments buffered so far: they are never sent. *)
Theorem speech_restart_drops_fragments {cm : JS.CaseMapping} :
  forall (cfg : Config) (w : World) (e0 e1 env : Env)
         (lost kept : list (Env * string)) (transcript : string),
    clientOpen env = true ->
    storeUp env = true ->
    let whole :=
      run cfg w
        (((e0, Upstream Realtime.speech_started) :: fragments lost)
         ++ ((e1, Upstream Realtime.speech_started) :: fragments kept)
         ++ [(env, says transcript)]) in
    filter is_assistant_transcript (sent (snd whole))
    = match kept with
      | [] => []
      | _ => [Client.assistant_transcript
                (String.concat EmptyString (map snd kept))]
      end.
Proof.
  intros cfg w e0 e1 env lost kept transcript Hc Hs whole. subst whole.
  rewrite run_app, speech_start_buffers. cbn [fst snd].
  rewrite app_nil_l, run_app, speech_start_buffers. cbn [fst snd].
  rewrite app_nil_l, run_cons. cbn [run snd]. rewrite app_nil_r.
  destruct (finalization_flushes cfg
              (set_buffered (map snd kept)
                 (set_isWaiting true
                    (set_buffered (map snd lost) (set_isWaiting true w))))
              env transcript Hc Hs) as (Hf & _).
  rewrite Hf. destruct w, kept; reflexivity.
Qed.

Lemma speech_restart_drops_fragments_witness :
  let quiet := calm SaleAnalyzer.ApiRejected 3 in
  let whole :=
    run ai_sells_config initial
      (((quiet, Upstream Realtime.speech_started)
        :: fragments [(quiet, "Welcome "); (quiet, "to ")])
       ++ ((quiet, Upstream Realtime.speech_started)
           :: fragments [(quiet, "Sorry?")])
       ++ [(quiet, says "hello")]) in
  filter is_assistant_transcript (sent (snd whole))
  = [Client.assistant_transcript "Sorry?"].
Proof.
  exact (speech_restart_drops_fragments ai_sells_config initial
           (calm SaleAnalyzer.ApiRejected 3) (calm SaleAnalyzer.ApiRejected 3)
           (calm SaleAnalyzer.ApiRejected 3)
           [(calm SaleAnalyzer.ApiRejected 3, "Welcome ");
            (calm SaleAnalyzer.ApiRejected 3, "to ")]
           [(calm SaleAnalyzer.ApiRejected 3, "Sorry?")]
           "hello" eq_refl eq_refl).
Defined.

(** X14. Outside a window every fragment is forwarded as it comes, in
    order, and only while the client socket is open; the world is left
    as it was. *)
Theorem fragments_forwarded_outside_window {cm : JS.CaseMapping} :
  forall (cfg : Config) (w : World) (ds : list (Env * string)),
    isWaitingForUserTranscript w = false ->
    run cfg w (fragments ds)
    = (w, map (fun d => ClientSend (Client.assistant_transcript (snd d)))
            (filter (fun d => clientOpen (fst d)) ds)).
Proof.
  intros cfg [s m p b l r] ds Hw. cbn [isWaitingForUserTranscript] in Hw.
  subst b. induction ds as [|[[co uo su rp nw] d] ds IH]; [reflexivity|].
  unfold fragments. cbn [map fst snd]. rewrite run_cons. fold (fragments ds).
  destruct co.
  - change (step cfg (mkWorld s m p false l r) (mkEnv true uo su rp nw)
              (Upstream (Realtime.audio_transcript_delta d)))
      with (mkWorld s m p false l r,
            [ClientSend (Client.assistant_transcript d)]).
    cbn [fst snd]. rewrite IH. reflexivity.
  - change (step cfg (mkWorld s m p false l r) (mkEnv false uo su rp nw)
              (Upstream (Realtime.audio_transcript_delta d)))
      with (mkWorld s m p false l r, @nil Effect).
    cbn [fst snd]. rewrite IH. reflexivity.
Qed.

Lemma fragments_forwarded_outside_window_witness :
  run ai_sells_config initial
    (fragments [(calm SaleAnalyzer.ApiRejected 1, "Wel");
                (calm SaleAnalyzer.ApiRejected 2, "come")])
  = (initial,
     [ClientSend (Client.assistant_transcript "Wel");
      ClientSend (Client.assistant_transcript "come")]).
Proof.
  exact (fragments_forwarded_outside_window ai_sells_config initial
           [(calm SaleAnalyzer.ApiRejected 1, "Wel");
            (calm SaleAnalyzer.ApiRejected 2, "come")] eq_refl).
Defined.

(** ** The client's frames *)

(** X19. Of the client's frames, the audio chunks reach the engine in the
    order received, each once, and every text becomes a user item
    followed at once by a response request; frames that arrive while the
    engine socket is not open, unknown and unparseable frames are
    dropped. *)
Theorem client_frames_forwarded_in_order :
  forall (frames : list (bool * ClientInput.Frame)),
    let cs := ClientInput.on_messages frames in
    ClientInput.appended cs = ClientInput.audio_received frames
    /\ ClientInput.spoken cs
       = flat_map (fun t => [ClientInput.conversation_item_create t;
                             ClientInput.response_create])
           (ClientInput.text_received frames).
Proof.
  intros frames cs; subst cs. unfold ClientInput.on_messages.
  induction frames as [|[up f] frames [IHa IHs]]; [split; reflexivity|].
  destruct up, f; cbn in *; rewrite ?IHa, ?IHs; split; reflexivity.
Qed.

(** ** The mode and the difficulty the chat handler loads *)

Lemma includes_In (l : list string) (x : option string) :
  AppConfig.includes l x = true -> exists v, x = Some v /\ In v l.
Proof.
  destruct x as [v|]; [|discriminate]. cbn. intros H.
  apply existsb_exists in H. destruct H as [u [Hin E]].
  apply String.eqb_eq in E. subst u. now exists v.
Qed.

Lemma handle_keeps_valid (up : bool) (q : AppConfig.Request)
  (rows : list AppConfig.Row) :
  Forall AppConfig.valid rows ->
  Forall AppConfig.valid (snd (AppConfig.handle up q rows)).
Proof.
  intros H.
  assert (Hmap : forall d,
             (forall v, AppConfig.set_salesMode d = Some v -> In v AppConfig.modes) ->
             (forall v, AppConfig.set_difficulty d = Some v -> In v AppConfig.levels) ->
             Forall AppConfig.valid (AppConfig.updateMany d rows)).
  { intros d Hm Hd. unfold AppConfig.updateMany. apply Forall_map.
    eapply Forall_impl; [|exact H]. intros r [Vm Vd].
    unfold AppConfig.valid, AppConfig.apply. cbn [AppConfig.salesMode AppConfig.difficulty].
    split.
    - destruct (AppConfig.set_salesMode d) eqn:E; cbn [Store.override]; auto.
    - destruct (AppConfig.set_difficulty d) eqn:E; cbn [Store.override]; auto. }
  destruct q as [m d v | m | d | v]; cbn [AppConfig.handle].
  - destruct (_ <? _)%nat; [|exact H]. destruct up; [|exact H].
    cbn [snd]. apply Hmap; unfold AppConfig.updateData; cbn.
    + intros u. destruct (AppConfig.truthy m && AppConfig.includes AppConfig.modes m) eqn:E;
        [|discriminate].
      apply andb_prop in E. destruct E as [_ E]. apply includes_In in E.
      destruct E as [x [-> Hin]]. now intros [= <-].
    + intros u. destruct (AppConfig.truthy d && AppConfig.includes AppConfig.levels d) eqn:E;
        [|discriminate].
      apply andb_prop in E. destruct E as [_ E]. apply includes_In in E.
      destruct E as [x [-> Hin]]. now intros [= <-].
  - destruct (AppConfig.includes AppConfig.modes m) eqn:E; cbn [negb]; [|exact H].
    destruct up; [|exact H]. cbn [snd]. apply includes_In in E.
    destruct E as [x [-> Hin]]. apply Hmap; cbn; [now intros u [= <-] | discriminate].
  - destruct (AppConfig.includes AppConfig.levels d) eqn:E; cbn [negb]; [|exact H].
    destruct up; [|exact H]. cbn [snd]. apply includes_In in E.
    destruct E as [x [-> Hin]]. apply Hmap; cbn; [discriminate | now intros u [= <-]].
  - destruct up; [|exact H]. cbn [snd]. apply Hmap; cbn; discriminate.
Qed.

(** X20. The routes that write the mode and the difficulty never store a
    value outside the known ones: from valid rows, after any requests to
    them (accepted, rejected or failed), the mode the chat handler loads
    is ai_sells or user_sells and the difficulty is one of the four. *)
Theorem loaded_mode_is_valid :
  forall (qs : list (bool * AppConfig.Request)) (rows : list AppConfig.Row),
    Forall AppConfig.valid rows ->
    let rows' := AppConfig.serve qs rows in
    Forall AppConfig.valid rows'
    /\ In (AppConfig.loaded_mode rows') AppConfig.modes
    /\ In (AppConfig.loaded_difficulty rows') AppConfig.levels.
Proof.
  intros qs. induction qs as [|[up q] qs IH]; intros rows H rows'.
  - subst rows'. cbn [AppConfig.serve]. split; [exact H|].
    unfold AppConfig.loaded_mode, AppConfig.loaded_difficulty.
    destruct rows as [|r rows]; cbn [hd_error option_map JS.str_or].
    + split; cbn; auto.
    + inversion H as [|x xs [Vm Vd] _]; subst.
      split.
      * destruct (AppConfig.salesMode r) eqn:E; [cbn; auto | exact Vm].
      * destruct (AppConfig.difficulty r) eqn:E; [cbn; auto | exact Vd].
  - subst rows'. cbn [AppConfig.serve]. apply IH, handle_keeps_valid, H.
Qed.

Lemma loaded_mode_is_valid_witness :
  let rows := [AppConfig.mkRow "ai_sells" "medium" "alloy"] in
  let rows' :=
    AppConfig.serve
      [(true, AppConfig.post_api_config (Some "user_sells") (Some "brutal") None);
       (true, AppConfig.post_voices_mode (Some "robot_sells"));
       (false, AppConfig.post_voices_difficulty (Some "hard"))]
      rows in
  Forall AppConfig.valid rows'
  /\ In (AppConfig.loaded_mode rows') AppConfig.modes
  /\ In (AppConfig.loaded_difficulty rows') AppConfig.levels.
Proof.
  exact (loaded_mode_is_valid
           [(true, AppConfig.post_api_config (Some "user_sells") (Some "brutal") None);
            (true, AppConfig.post_voices_mode (Some "robot_sells"));
            (false, AppConfig.post_voices_difficulty (Some "hard"))]
           [AppConfig.mkRow "ai_sells" "medium" "alloy"]
           ltac:(constructor; [split; cbn; auto | constructor])).
Defined.

